(** * Deployment entry point and CDK stacks of the MCP Gateway Registry

    Shallow embedding of the TypeScript entry point (bin/ app, [part_000]),
    of [McpgwCompleteInfrastructureStack] ([part_002]), of
    [McpgwMicroservicesCdkStack] and of the Kubernetes manifest constructs
    under lib/k8s-manifests.

    The program builds a CDK construct tree.  We model it as a state
    monad over the ordered list of declarations made so far (the stack
    being built), with exceptions as errors: those the program throws
    itself, those the constructors of aws-cdk-lib throw when they check
    their props (the certificate's domain name, the Cognito domain prefix,
    the app client's callback URLs, and the VPC, whose checks are an
    oracle of the library), and construct name conflicts.  A declaration
    records its construct path (its logical name inside the stack), its
    kind, the configuration values the source writes into it and the
    construct paths it references (its dependency edges).  Adding a
    construct whose path already exists throws, as the constructs library
    does ("There is already a Construct with name ...").  Declarations made
    before an exception stay in the state, so that the trace of a failed
    run can be inspected; a run produces a deployment graph only when it
    ends without an exception. *)

From Stdlib Require Import String Ascii List Bool ZArith Lia.
Import ListNotations.
Open Scope list_scope.
Open Scope string_scope.

(** ** JavaScript values *)

(** The values that flow through the entry point: [undefined], strings
    (context values and environment variables), booleans and numbers
    ([JNum None] is [NaN]). *)
Inductive jsval : Type :=
| JUndef
| JStr (s : string)
| JBool (b : bool)
| JNum (n : option Z).

(** JavaScript truthiness. *)
Definition truthy (v : jsval) : bool :=
  match v with
  | JUndef => false
  | JStr s => negb (String.eqb s "")
  | JBool b => b
  | JNum None => false
  | JNum (Some z) => negb (Z.eqb z 0)
  end.

(** [a || b] *)
Definition js_or (a b : jsval) : jsval := if truthy a then a else b.

(** [!a] *)
Definition js_not (a : jsval) : jsval := JBool (negb (truthy a)).

(** [a === b] *)
Definition js_strict_eq (a b : jsval) : bool :=
  match a, b with
  | JUndef, JUndef => true
  | JStr s, JStr t => String.eqb s t
  | JBool x, JBool y => Bool.eqb x y
  | JNum (Some x), JNum (Some y) => Z.eqb x y
  | _, _ => false
  end.

(** Decimal rendering of an integer, as [String(n)] prints it. *)
Fixpoint digits_of_pos (fuel : nat) (n : N) (acc : string) : string :=
  match fuel with
  | O => acc
  | S fuel' =>
      let d := N.modulo n 10 in
      let c := ascii_of_N (48 + d) in
      let q := N.div n 10 in
      if N.eqb q 0 then String c acc else digits_of_pos fuel' q (String c acc)
  end.

Definition string_of_Z (z : Z) : string :=
  match z with
  | Z0 => "0"
  | Zpos p => digits_of_pos (Pos.size_nat p) (Npos p) ""
  | Zneg p => "-" ++ digits_of_pos (Pos.size_nat p) (Npos p) ""
  end.

(** The string a value renders to inside a template literal [`${v}`]. *)
Definition js_str (v : jsval) : string :=
  match v with
  | JUndef => "undefined"
  | JStr s => s
  | JBool true => "true"
  | JBool false => "false"
  | JNum None => "NaN"
  | JNum (Some z) => string_of_Z z
  end.

(** *** [parseInt(s)] with no radix

    Leading white space is skipped, an optional sign is read, a [0x] or
    [0X] prefix selects radix 16, and the longest run of digits of the
    radix is read; with no digit the result is [NaN]. *)
Definition is_js_space (c : ascii) : bool :=
  let n := nat_of_ascii c in
  (Nat.eqb n 32 || Nat.eqb n 9 || Nat.eqb n 10 || Nat.eqb n 11
   || Nat.eqb n 12 || Nat.eqb n 13)%bool.

Fixpoint skip_space (s : string) : string :=
  match s with
  | String c s' => if is_js_space c then skip_space s' else s
  | EmptyString => EmptyString
  end.

Definition digit_value (radix : Z) (c : ascii) : option Z :=
  let n := Z.of_nat (nat_of_ascii c) in
  let v :=
    if Z.leb 48 n && Z.leb n 57 then Some (n - 48)%Z
    else if Z.leb 97 n && Z.leb n 122 then Some (n - 87)%Z
    else if Z.leb 65 n && Z.leb n 90 then Some (n - 55)%Z
    else None in
  match v with
  | Some d => if Z.ltb d radix then Some d else None
  | None => None
  end.

(** Longest digit prefix: [None] when there is no digit. *)
Fixpoint read_digits (radix : Z) (s : string) (acc : option Z) : option Z :=
  match s with
  | EmptyString => acc
  | String c s' =>
      match digit_value radix c with
      | Some d =>
          let a := match acc with Some a => a | None => 0%Z end in
          read_digits radix s' (Some (a * radix + d)%Z)
      | None => acc
      end
  end.

Definition parseInt_string (s : string) : option Z :=
  let s1 := skip_space s in
  let '(sign, s2) :=
    match s1 with
    | String "-" r => ((-1)%Z, r)
    | String "+" r => (1%Z, r)
    | _ => (1%Z, s1)
    end in
  let '(radix, s3) :=
    match s2 with
    | String "0" (String "x" r) => (16%Z, r)
    | String "0" (String "X" r) => (16%Z, r)
    | _ => (10%Z, s2)
    end in
  match read_digits radix s3 None with
  | Some n => Some (sign * n)%Z
  | None => None
  end.

(** [parseInt(v)] first converts its argument to a string. *)
Definition parseInt (v : jsval) : jsval := JNum (parseInt_string (js_str v)).

(** [s.toLowerCase()] on ASCII strings. *)
Fixpoint toLowerCase (s : string) : string :=
  match s with
  | EmptyString => EmptyString
  | String c s' =>
      let n := nat_of_ascii c in
      let c' := if (Nat.leb 65 n && Nat.leb n 90)%bool
                then ascii_of_nat (n + 32) else c in
      String c' (toLowerCase s')
  end.

(** ** Raw inputs of one invocation

    The CDK context ([app.node.tryGetContext], given with [-c key=value]
    or in cdk.json) and the process environment (after [dotenv.config()]),
    both as association lists from names to strings. *)
Record raw : Type := mk_raw {
  context : list (string * string);
  environ : list (string * string)
}.

Fixpoint assoc (k : string) (l : list (string * string)) : option string :=
  match l with
  | [] => None
  | (k', v) :: l' => if String.eqb k k' then Some v else assoc k l'
  end.

Definition of_opt (o : option string) : jsval :=
  match o with Some s => JStr s | None => JUndef end.

(** [app.node.tryGetContext(k)] *)
Definition tryGetContext (r : raw) (k : string) : jsval := of_opt (assoc k (context r)).

(** [process.env.K] *)
Definition process_env (r : raw) (k : string) : jsval := of_opt (assoc k (environ r)).

(** The outside world a run observes besides its inputs: the clock read by
    [Date.now()] and the renderings [Math.random().toString(36)] of the
    successive calls to [Math.random()]. *)
Record world : Type := mk_world {
  now : Z;
  random36 : nat -> string
}.

(** ** Parameter resolution (entry point, lines 17-24 and 39-41) *)

Definition deploymentMode (r : raw) : jsval :=
  js_or (tryGetContext r "deploymentMode")
        (js_or (process_env r "DEPLOYMENT_MODE") (JStr "complete")).
Definition clusterName (r : raw) : jsval :=
  js_or (tryGetContext r "clusterName")
        (js_or (process_env r "CLUSTER_NAME") (JStr "mcp-gateway-registry")).
Definition domainName (r : raw) : jsval :=
  js_or (tryGetContext r "domainName") (process_env r "DOMAIN_NAME").
Definition efsFileSystemId (r : raw) : jsval :=
  js_or (tryGetContext r "efsFileSystemId") (process_env r "EFS_FILE_SYSTEM_ID").
Definition certificateArn (r : raw) : jsval :=
  js_or (tryGetContext r "certificateArn") (process_env r "CERTIFICATE_ARN").
Definition adminPassword (r : raw) : jsval :=
  js_or (tryGetContext r "adminPassword") (process_env r "ADMIN_PASSWORD").
Definition hostedZoneId (r : raw) : jsval :=
  js_or (tryGetContext r "hostedZoneId") (process_env r "HOSTED_ZONE_ID").
(** [tryGetContext('createCertificate') || process.env.CREATE_CERTIFICATE === 'true'] *)
Definition createCertificate (r : raw) : jsval :=
  js_or (tryGetContext r "createCertificate")
        (JBool (js_strict_eq (process_env r "CREATE_CERTIFICATE") (JStr "true"))).

(** Read in the [complete] and [infrastructure-only] branches (the two
    branches compute them with the same expressions). *)
Definition vpcCidr (r : raw) : jsval :=
  js_or (tryGetContext r "vpcCidr")
        (js_or (process_env r "VPC_CIDR") (JStr "10.0.0.0/16")).
Definition maxAzs (r : raw) : jsval :=
  parseInt (js_or (tryGetContext r "maxAzs")
                  (js_or (process_env r "MAX_AZS") (JStr "3"))).
Definition kubernetesVersion (r : raw) : jsval :=
  js_or (tryGetContext r "kubernetesVersion")
        (js_or (process_env r "KUBERNETES_VERSION") (JStr "1.28")).

(** [env.region]: [process.env.CDK_DEFAULT_REGION || 'us-east-1'] *)
Definition region (r : raw) : jsval :=
  js_or (process_env r "CDK_DEFAULT_REGION") (JStr "us-east-1").
(** [env.account]: [process.env.CDK_DEFAULT_ACCOUNT] *)
Definition account (r : raw) : jsval := process_env r "CDK_DEFAULT_ACCOUNT".

(** ** The construct tree *)

(** Kinds of the constructs the program declares.  [KManifest k] is a
    Kubernetes manifest added with [cluster.addManifest], [k] being its
    Kubernetes [kind]; the [KImported...] kinds are constructs that only
    reference existing cloud resources ([fromCertificateArn],
    [fromHostedZoneId], [fromClusterAttributes]); [KPatch] is a
    Kubernetes patch; [KConstruct] is a plain grouping [Construct] (the
    manifest classes of lib/k8s-manifests, the cluster's [AwsAuth]). *)
Inductive kind : Type :=
| KVpc | KFlowLog | KFileSystem | KAccessPoint | KIngressRule
| KKubectlLayer | KFargateCluster | KImportedCluster
| KImportedCertificate | KImportedHostedZone | KCertificate
| KUserPool | KUserPoolClient | KUserPoolGroup | KResourceServer
| KUserPoolDomain | KUserPoolUser | KUserToGroupAttachment
| KAddon | KHelmChart | KServiceAccount | KFargateProfile | KRole
| KManifest (k8s_kind : string) | KPatch
| KOutput | KConstruct.

Definition kind_eq_dec (a b : kind) : {a = b} + {a <> b}.
Proof. decide equality; apply string_dec. Defined.

Definition kind_eqb (a b : kind) : bool := if kind_eq_dec a b then true else false.

(** A construct path inside the stack: its logical name. *)
Definition path := list string.

Fixpoint path_eqb (p q : path) : bool :=
  match p, q with
  | [], [] => true
  | x :: p', y :: q' => String.eqb x y && path_eqb p' q'
  | _, _ => false
  end.

(** A value written into a declaration: its rendering and the constructs
    it references.  A CDK token ([vpc.vpcId], [cluster.clusterName], ...)
    references the construct it is an attribute of; CloudFormation turns
    each reference into a dependency edge. *)
Record attr : Type := mk_attr { a_val : string; a_refs : list path }.

Definition lit (s : string) : attr := mk_attr s [].

Fixpoint join (sep : string) (l : list string) : string :=
  match l with
  | [] => ""
  | [x] => x
  | x :: l' => x ++ sep ++ join sep l'
  end.

Definition token (p : path) (attribute : string) : attr :=
  mk_attr ("${Token[" ++ join "/" p ++ "." ++ attribute ++ "]}") [p].

(** [a ++ b] on attributes (template literals mixing tokens and text). *)
Definition acat (a b : attr) : attr := mk_attr (a_val a ++ a_val b) (app (a_refs a) (a_refs b)).

Record decl : Type := mk_decl {
  d_path : path;
  d_kind : kind;
  d_props : list (string * string);
  d_deps : list path
}.

(** The exceptions of a run: an [Error] thrown by a [throw] statement of
    the program itself (the entry point, [setupCertificate]); an error
    thrown by a check of aws-cdk-lib on the props of a construct; the
    error of the constructs library on a construct id used twice in the
    same scope. *)
Inductive error : Type :=
| JsError (message : string)
| LibraryError (message : string)
| DuplicateConstruct (p : path).

Inductive result (A : Type) : Type :=
| ROk (a : A)
| RErr (e : error).
Arguments ROk {A} a.
Arguments RErr {A} e.

(** The stacks created in the app and the declarations made in them, in
    construction order. *)
Record state : Type := mk_state {
  st_stacks : list string;
  st_decls : list decl
}.

Definition empty_state : state := mk_state [] [].

(** *** A state and exception monad *)
Definition M (A : Type) : Type := state -> result A * state.

Definition ret {A} (a : A) : M A := fun s => (ROk a, s).

Definition bind {A B} (m : M A) (k : A -> M B) : M B :=
  fun s => match m s with
           | (ROk a, s') => k a s'
           | (RErr e, s') => (RErr e, s')
           end.

Definition throw {A} (e : error) : M A := fun s => (RErr e, s).

Notation "x <- m ;; k" := (bind m (fun x => k))
  (at level 61, m at next level, right associativity).
Notation "m ;; k" := (bind m (fun _ => k))
  (at level 61, right associativity).

(** [new Construct(scope, id, ...)]: fails if the path is taken. *)
Definition declare (p : path) (k : kind) (props : list (string * attr))
    (explicit_deps : list path) : M unit :=
  fun s =>
    if existsb (path_eqb p) (map d_path (st_decls s))
    then (RErr (DuplicateConstruct p), s)
    else (ROk tt,
          mk_state (st_stacks s)
            (app (st_decls s)
             [mk_decl p k (map (fun kv => (fst kv, a_val (snd kv))) props)
                (app explicit_deps (flat_map (fun kv => a_refs (snd kv)) props))])).

(** [new cdk.Stack(app, id, props)] *)
Definition new_stack (id : string) : M unit :=
  fun s => (ROk tt, mk_state (app (st_stacks s) [id]) (st_decls s)).

(** What the constructs of a stack read from [this]. *)
Record stack_info : Type := mk_stack_info {
  stackName : string;
  stack_region : string;
  stack_account : string
}.

(** [new cdk.CfnOutput(this, id, { value, description })] *)
Definition CfnOutput (id : string) (value : attr) (description : string) : M unit :=
  declare [id] KOutput [("value", value); ("description", lit description)] [].

(** *** Checks of aws-cdk-lib

    Some constructors of aws-cdk-lib check their props and throw.  The
    checks the stacks meet that test the inputs as plain strings are
    written out: the domain name of an [acm.Certificate], the prefix of a
    [cognito.UserPoolDomain] and the callback URLs of a
    [cognito.UserPoolClient].  The checks of the VPC network are not:
    [ec2.IpAddresses.cidr] parses the CIDR block, and [new ec2.Vpc] lays
    out the subnets of each availability zone in it, the availability
    zones being those of the stack's environment (region and account).
    They are a parameter of the model: a [library] gives the verdict of
    each ([Some message] when it throws).  Once the VPC is built it has a
    public and a private subnet in each of its availability zones, which
    is what the file system, the cluster and the Fargate profiles select. *)
Record library : Type := mk_library {
  (** [ec2.IpAddresses.cidr(cidrBlock)] *)
  ipAddresses_cidr_error : string -> option string;
  (** [new ec2.Vpc(...)] after its construct is created, from the region,
      the account, the CIDR block and [maxAzs] *)
  vpc_error : string -> string -> string -> jsval -> option string
}.

(** A check: it throws its message, if any. *)
Definition library_check (verdict : option string) : M unit :=
  match verdict with
  | Some message => throw (LibraryError message)
  | None => ret tt
  end.

(** [acm.Certificate] refuses a domain name longer than 64 characters.
    Strings are sequences of 8-bit characters, one per JavaScript code
    unit. *)
Definition long_domainName (domainName : string) : bool := Nat.ltb 64 (String.length domainName).

Definition Certificate_domainName_msg : string := "Domain name must be 64 characters or less".

Definition Certificate_check (domainName : string) : option string :=
  if long_domainName domainName then Some Certificate_domainName_msg else None.

(** [new acm.Certificate(this, id, props)]: the construct is added to the
    tree ([super(scope, id)]), then its domain name is checked. *)
Definition new_Certificate (id domainName : string) (props : list (string * attr)) : M unit :=
  declare [id] KCertificate (("domainName", lit domainName) :: props) [] ;;
  library_check (Certificate_check domainName).

Definition is_domainPrefix_char (c : ascii) : bool :=
  let n := nat_of_ascii c in
  (Nat.leb 97 n && Nat.leb n 122) || (Nat.leb 48 n && Nat.leb n 57) || Nat.eqb n 45.

Fixpoint all_domainPrefix_chars (s : string) : bool :=
  match s with
  | EmptyString => true
  | String c s' => is_domainPrefix_char c && all_domainPrefix_chars s'
  end.

(** [/^[a-z0-9-]+$/.test(s)] *)
Definition domainPrefix_matches (s : string) : bool :=
  negb (String.eqb s "") && all_domainPrefix_chars s.

Definition UserPoolDomain_prefix_msg : string :=
  "domainPrefix for cognitoDomain can contain only lowercase alphabets, numbers and hyphens".

(** [cognito.UserPoolDomain] refuses a non-empty [cognitoDomain.domainPrefix]
    that does not match [/^[a-z0-9-]+$/]. *)
Definition UserPoolDomain_check (domainPrefix : string) : option string :=
  if negb (String.eqb domainPrefix "") && negb (domainPrefix_matches domainPrefix)
  then Some UserPoolDomain_prefix_msg else None.

(** [new cognito.UserPoolClient] with the authorization-code flow enabled
    refuses an empty list of callback URLs. *)
Definition UserPoolClient_callback_msg : string :=
  "callbackUrl must not be empty when codeGrant or implicitGrant OAuth flows are enabled.".

Definition UserPoolClient_check (callbackUrls : list string) : option string :=
  match callbackUrls with
  | [] => Some UserPoolClient_callback_msg
  | _ :: _ => None
  end.

(** [new cognito.UserPoolDomain(this, id, { ..., cognitoDomain: { domainPrefix } })]:
    the construct is added to the tree, then the prefix is checked. *)
Definition new_UserPoolDomain (id : string) (props : list (string * attr)) (domainPrefix : string)
    : M unit :=
  declare [id] KUserPoolDomain (app props [("domainPrefix", lit domainPrefix)]) [] ;;
  library_check (UserPoolDomain_check domainPrefix).

(** *** Clusters

    A cluster as the manifest classes see it ([eks.ICluster]): the path of
    its construct and its [clusterName] attribute.  The [add...] methods
    create the new construct as a child of the cluster construct, under the
    id the CDK derives from the given id; each new construct depends on the
    cluster. *)
Record cluster : Type := mk_cluster {
  c_path : path;
  c_clusterName : attr
}.

Definition addManifest (c : cluster) (id k8s_kind : string)
    (props : list (string * attr)) : M unit :=
  declare (app (c_path c) ["manifest-" ++ id]) (KManifest k8s_kind)
    (("kind", lit k8s_kind) :: props) [c_path c].

Definition addHelmChart (c : cluster) (id : string) (props : list (string * attr)) : M unit :=
  declare (app (c_path c) ["chart-" ++ id]) KHelmChart props [c_path c].

(** [cluster.addServiceAccount(id, { name, namespace })]: a [ServiceAccount]
    construct under the cluster, which adds the Kubernetes ServiceAccount
    as the manifest [manifest-<id>ServiceAccountResource] under itself.
    The role it creates for the account is not recorded.  The names the
    stack gives are lowercase DNS labels of at most 61 characters, which
    the library's checks on service account names accept. *)
Definition addServiceAccount (c : cluster) (id name namespace : string) : M unit :=
  declare (app (c_path c) [id]) KServiceAccount
    [("name", lit name); ("namespace", lit namespace)] [c_path c] ;;
  declare (app (c_path c) [id; "manifest-" ++ id ++ "ServiceAccountResource"])
    (KManifest "ServiceAccount")
    [("kind", lit "ServiceAccount"); ("metadata.name", lit name);
     ("metadata.namespace", lit namespace)] [c_path c].

(** [cluster.awsAuth] of a cluster the stack owns: created on first use,
    with the manifest of the [aws-auth] ConfigMap. *)
Definition awsAuth (c : cluster) : M unit :=
  fun s =>
    if existsb (path_eqb (app (c_path c) ["AwsAuth"])) (map d_path (st_decls s)) then (ROk tt, s)
    else (declare (app (c_path c) ["AwsAuth"]) KConstruct [] [] ;;
          declare (app (c_path c) ["AwsAuth"; "manifest"]) (KManifest "ConfigMap")
            [("kind", lit "ConfigMap"); ("metadata.name", lit "aws-auth");
             ("metadata.namespace", lit "kube-system")] [c_path c]) s.

(** [new eks.FargateProfile(scope, id, { cluster, ... })]: the profile maps
    its pod execution role in the aws-auth ConfigMap of the cluster. *)
Definition new_FargateProfile (p : path) (c : cluster) (props : list (string * attr))
    (explicit_deps : list path) : M unit :=
  declare p KFargateProfile props explicit_deps ;;
  awsAuth c.

(** [cluster.addFargateProfile(id, options)] *)
Definition addFargateProfile (c : cluster) (id : string) (props : list (string * attr)) : M unit :=
  new_FargateProfile (app (c_path c) ["fargate-profile-" ++ id]) c props [c_path c].

(** [new Construct(scope, id)] for the manifest classes, created in the
    stack. *)
Definition new_construct (id : string) : M unit := declare [id] KConstruct [] [].

(** ** Manifest classes of lib/k8s-manifests

    Each class is a [Construct] created in the stack whose constructor adds
    Kubernetes manifests to the cluster it is given.  The configuration
    values kept are the manifest fields set from the props and the fields
    that name other objects (names, namespaces, claim names, selectors,
    environment variables); the long container start-up scripts are
    constant strings that do not depend on any input and are left out. *)

(** [EfsPvc] (alb-ingress.ts, lines 126-184). *)
Definition EfsPvc (id : string) (c : cluster) (namespace : string) (efsFileSystemId : attr) : M unit :=
  new_construct id ;;
  addManifest c "EfsStorageClass" "StorageClass"
    [("metadata.name", lit "efs-sc");
     ("provisioner", lit "efs.csi.aws.com");
     ("parameters.provisioningMode", lit "efs-ap");
     ("parameters.fileSystemId", efsFileSystemId);
     ("parameters.directoryPerms", lit "755");
     ("parameters.basePath", lit "/mcp-gateway")] ;;
  addManifest c "EfsPvc" "PersistentVolumeClaim"
    [("metadata.name", lit "efs-pvc");
     ("metadata.namespace", lit namespace);
     ("spec.storageClassName", lit "efs-sc");
     ("spec.resources.requests.storage", lit "100Gi")].

Record AuthServerDeploymentProps : Type := mk_AuthServerDeploymentProps {
  as_cluster : cluster;
  as_namespace : string;
  as_adminUser : attr;
  as_adminPassword : attr;
  as_secretKey : attr;
  as_registryUrl : attr;
  as_authServerExternalUrl : attr;
  as_cognitoClientId : attr;
  as_cognitoClientSecret : attr;
  as_cognitoUserPoolId : attr;
  as_awsRegion : attr
}.

(** [AuthServerDeployment] (alb-ingress.ts, lines 186-401). *)
Definition AuthServerDeployment (id : string) (p : AuthServerDeploymentProps) : M unit :=
  new_construct id ;;
  addManifest (as_cluster p) "AuthServerDeployment" "Deployment"
    [("metadata.name", lit "auth-server");
     ("metadata.namespace", lit (as_namespace p));
     ("containers.auth-server.image", lit "python:3.12");
     ("containers.auth-server.port", lit "8888");
     ("env.HOME", lit "/app");
     ("env.PYTHONUNBUFFERED", lit "1");
     ("env.REGISTRY_URL", as_registryUrl p);
     ("env.SECRET_KEY", as_secretKey p);
     ("env.ADMIN_USER", as_adminUser p);
     ("env.ADMIN_PASSWORD", as_adminPassword p);
     ("env.AUTH_SERVER_EXTERNAL_URL", as_authServerExternalUrl p);
     ("env.COGNITO_CLIENT_ID", as_cognitoClientId p);
     ("env.COGNITO_CLIENT_SECRET", as_cognitoClientSecret p);
     ("env.COGNITO_USER_POOL_ID", as_cognitoUserPoolId p);
     ("env.AWS_REGION", as_awsRegion p);
     ("volumeMounts.efs-storage.mountPath", lit "/efs");
     ("volumes.efs-storage.claimName", lit "efs-claim")] ;;
  addManifest (as_cluster p) "AuthServerService" "Service"
    [("metadata.name", lit "auth-server");
     ("metadata.namespace", lit (as_namespace p));
     ("spec.selector.app", lit "auth-server");
     ("spec.ports.auth", lit "8888")] ;;
  addManifest (as_cluster p) "AuthServerHPA" "HorizontalPodAutoscaler"
    [("metadata.name", lit "auth-server-hpa");
     ("metadata.namespace", lit (as_namespace p));
     ("spec.scaleTargetRef.name", lit "auth-server")].

Record RegistryDeploymentProps : Type := mk_RegistryDeploymentProps {
  rg_cluster : cluster;
  rg_namespace : string;
  rg_adminUser : attr;
  rg_adminPassword : attr;
  rg_secretKey : attr;
  rg_domainName : attr;
  rg_authServerUrl : attr;
  rg_authServerExternalUrl : attr;
  rg_registryUrl : attr;
  rg_efsFileSystemId : attr;
  rg_cognitoClientId : attr;
  rg_cognitoClientSecret : attr;
  rg_cognitoUserPoolId : attr;
  rg_awsRegion : attr
}.

(** [RegistryDeployment] (registry-deployment-updated.ts, lines 1-421).
    [efsFileSystemId] is accepted but not used by the manifests. *)
Definition RegistryDeployment (id : string) (p : RegistryDeploymentProps) : M unit :=
  new_construct id ;;
  addManifest (rg_cluster p) "RegistryDeployment" "Deployment"
    [("metadata.name", lit "registry");
     ("metadata.namespace", lit (rg_namespace p));
     ("containers.registry.image", lit "python:3.12-slim");
     ("containers.registry.ports", lit "80,443,7860");
     ("env.HOME", lit "/app");
     ("env.PYTHONUNBUFFERED", lit "1");
     ("env.DEBIAN_FRONTEND", lit "noninteractive");
     ("env.SECRET_KEY", rg_secretKey p);
     ("env.ADMIN_USER", rg_adminUser p);
     ("env.ADMIN_PASSWORD", rg_adminPassword p);
     ("env.AUTH_SERVER_URL", rg_authServerUrl p);
     ("env.AUTH_SERVER_EXTERNAL_URL", rg_authServerExternalUrl p);
     ("env.REGISTRY_URL", rg_registryUrl p);
     ("env.DOMAIN_NAME", rg_domainName p);
     ("env.COGNITO_CLIENT_ID", rg_cognitoClientId p);
     ("env.COGNITO_CLIENT_SECRET", rg_cognitoClientSecret p);
     ("env.COGNITO_USER_POOL_ID", rg_cognitoUserPoolId p);
     ("env.AWS_REGION", rg_awsRegion p);
     ("env.EMBEDDINGS_MODEL_NAME", lit "all-MiniLM-L6-v2");
     ("env.EMBEDDINGS_MODEL_DIMENSIONS", lit "384");
     ("volumeMounts.efs-storage.mountPath", lit "/efs");
     ("volumes.efs-storage.claimName", lit "efs-claim")] ;;
  addManifest (rg_cluster p) "RegistryService" "Service"
    [("metadata.name", lit "registry");
     ("metadata.namespace", lit (rg_namespace p));
     ("spec.selector.app", lit "registry");
     ("spec.ports", lit "80,443,7860")] ;;
  addManifest (rg_cluster p) "RegistryHPA" "HorizontalPodAutoscaler"
    [("metadata.name", lit "registry-hpa");
     ("metadata.namespace", lit (rg_namespace p));
     ("spec.scaleTargetRef.name", lit "registry")].

(** The four tool-server classes share one shape: a Deployment whose
    volume and mount exist only when [efsFileSystemId] is truthy
    ([...(props.efsFileSystemId && { volumes: [...] })]), and a Service.
    [server_env] lists the environment entries of the container. *)
Definition efs_volume (efsFileSystemId : attr) (subPath : string) : list (string * attr) :=
  if negb (String.eqb (a_val efsFileSystemId) "")
  then [("volumeMounts.efs-storage.mountPath", lit ("/mcp-gateway/" ++ subPath));
        ("volumeMounts.efs-storage.subPath", lit subPath);
        ("volumes.efs-storage.claimName", lit "efs-pvc")]
  else [].

Definition tool_server (id deployment_id service_id name port subPath : string)
    (replicas : string) (server_env : list (string * attr))
    (c : cluster) (namespace : string) (efsFileSystemId : attr) : M unit :=
  new_construct id ;;
  addManifest c deployment_id "Deployment"
    (app [("metadata.name", lit name);
          ("metadata.namespace", lit namespace);
          ("spec.replicas", lit replicas);
          ("containers." ++ name ++ ".image", lit "python:3.12-slim");
          ("containers." ++ name ++ ".port", lit port);
          ("env.PORT", lit port);
          ("env.PYTHONUNBUFFERED", lit "1");
          ("env.MCP_SERVER_NAME", lit name)]
      (app server_env (efs_volume efsFileSystemId subPath))) ;;
  addManifest c service_id "Service"
    [("metadata.name", lit name);
     ("metadata.namespace", lit namespace);
     ("spec.selector.app", lit name);
     ("spec.ports.http", lit port)].

(** [CurrentTimeServerDeployment] (currenttime-server-deployment.ts). *)
Definition CurrentTimeServerDeployment (id : string) :=
  tool_server id "CurrentTimeServerDeployment" "CurrentTimeServerService"
    "currenttime-server" "8000" "currenttime" "1" [].

(** [FinInfoServerDeployment] (registry-deployment-updated.ts, lines 423-722). *)
Definition FinInfoServerDeployment (id : string) :=
  tool_server id "FinInfoServerDeployment" "FinInfoServerService"
    "fininfo-server" "8001" "fininfo" "1"
    [("env.POLYGON_API_KEY", lit "secretKeyRef:mcp-gateway-secrets/polygon-api-key")].

(** [FakeToolsServerDeployment] (faketools-server-deployment.ts). *)
Definition FakeToolsServerDeployment (id : string) :=
  tool_server id "FakeToolsServerDeployment" "FakeToolsServerService"
    "faketools-server" "8002" "faketools" "1" [].

(** [McpGatewayServerDeployment] (mcpgw-server-deployment.ts). *)
Definition McpGatewayServerDeployment (id : string) :=
  tool_server id "McpGatewayServerDeployment" "McpGatewayServerService"
    "mcpgw-server" "8003" "mcpgw" "2"
    [("env.AUTH_SERVER_URL", lit "configMapKeyRef:mcp-gateway-config/AUTH_SERVER_URL");
     ("env.REGISTRY_URL", lit "configMapKeyRef:mcp-gateway-config/REGISTRY_URL")].

(** [AlbIngress] (alb-ingress.ts, lines 1-124). *)
Definition AlbIngress (id : string) (c : cluster) (namespace : string)
    (domainName certificateArn : attr) : M unit :=
  new_construct id ;;
  addManifest c "RegistryIngress" "Ingress"
    [("metadata.name", lit "registry-ingress");
     ("metadata.namespace", lit namespace);
     ("annotations.kubernetes.io/ingress.class", lit "alb");
     ("annotations.alb.ingress.kubernetes.io/scheme", lit "internet-facing");
     ("annotations.alb.ingress.kubernetes.io/certificate-arn", certificateArn);
     ("spec.rules.host", domainName);
     ("spec.rules.paths./", lit "registry:7860");
     ("spec.rules.paths./auth", lit "auth-server:8888");
     ("spec.rules.paths./mcp", lit "mcpgw-server:8003");
     ("spec.rules.paths./api/time", lit "currenttime-server:8000");
     ("spec.rules.paths./api/finance", lit "fininfo-server:8001");
     ("spec.rules.paths./api/tools", lit "faketools-server:8002")].

(** ** [McpgwCompleteInfrastructureStack] (part_002) *)

(** [McpgwCompleteInfrastructureStackProps]; optional props are [JUndef]
    when not given. *)
Record CompleteProps : Type := mk_CompleteProps {
  cp_domainName : jsval;
  cp_adminPassword : jsval;
  cp_adminUser : jsval;
  cp_hostedZoneId : jsval;
  cp_certificateArn : jsval;
  cp_createCertificate : jsval;
  cp_vpcCidr : jsval;
  cp_maxAzs : jsval;
  cp_clusterName : jsval;
  cp_kubernetesVersion : jsval;
  cp_efsPerformanceMode : jsval;
  cp_efsThroughputMode : jsval;
  cp_cognitoUserPoolName : jsval;
  cp_cognitoCallbackUrls : option (list string);
  cp_cognitoLogoutUrls : option (list string);
  cp_deployApplications : jsval
}.

(** The certificate a stack ends up with. *)
Inductive certificate : Type :=
| ImportedCertificate (arn : string)
| CreatedCertificate (p : path).

(** [certificate.certificateArn] *)
Definition certificate_arn (c : certificate) : attr :=
  match c with
  | ImportedCertificate arn => lit arn
  | CreatedCertificate p => token p "Ref"
  end.

Module Complete.

Definition vpc : path := ["McpVpc"].
Definition efs : path := ["McpEfs"].
Definition clusterPath : path := ["McpCluster"].
Definition userPool : path := ["McpUserPool"].
Definition userPoolClient : path := ["McpUserPoolClient"].
Definition resourceServer : path := ["McpResourceServer"].

(** [this.cluster] *)
Definition the_cluster : cluster := mk_cluster clusterPath (token clusterPath "Ref").

(** [this.generateUniqueServiceAccountName(baseName)] *)
Definition generateUniqueServiceAccountName (si : stack_info) (baseName : string) : string :=
  baseName ++ "-" ++ toLowerCase (stackName si).

(** [ec2.IpAddresses.cidr(props.vpcCidr || '10.0.0.0/16')] is an argument of
    [new ec2.Vpc]: it is evaluated, and may throw, before the VPC construct
    exists. *)
Definition createVpc (lib : library) (si : stack_info) (p : CompleteProps) : M unit :=
  let cidr := js_str (js_or (cp_vpcCidr p) (JStr "10.0.0.0/16")) in
  let maxAzs := js_or (cp_maxAzs p) (JNum (Some 3%Z)) in
  library_check (ipAddresses_cidr_error lib cidr) ;;
  declare vpc KVpc
    [("ipAddresses", lit cidr);
     ("maxAzs", lit (js_str maxAzs));
     ("subnetConfiguration", lit "PublicSubnet/24,PrivateSubnet/24");
     ("natGateways", lit "1")] [] ;;
  library_check (vpc_error lib (stack_region si) (stack_account si) cidr maxAzs) ;;
  declare ["McpVpcFlowLog"] KFlowLog
    [("resourceType", token vpc "VpcId"); ("destination", lit "CloudWatchLogs")] [].

Definition createEfsFileSystem (p : CompleteProps) : M unit :=
  declare efs KFileSystem
    [("vpc", token vpc "VpcId");
     ("performanceMode", lit (js_str (js_or (cp_efsPerformanceMode p) (JStr "generalPurpose"))));
     ("throughputMode", lit (js_str (js_or (cp_efsThroughputMode p) (JStr "bursting"))));
     ("encrypted", lit "true")] [] ;;
  declare ["McpEfsAccessPoint"] KAccessPoint
    [("fileSystem", token efs "Ref"); ("path", lit "/mcp-gateway")] [].

(** [addCoreFargateProfiles] has an empty body. *)
Definition addCoreFargateProfiles (c : cluster) : M unit := ret tt.

Definition createEksCluster (p : CompleteProps) : M unit :=
  declare ["KubectlLayer"] KKubectlLayer [] [] ;;
  declare clusterPath KFargateCluster
    [("version", lit (js_str (js_or (cp_kubernetesVersion p) (JStr "1.28"))));
     ("clusterName", lit (js_str (js_or (cp_clusterName p) (JStr "mcp-gateway-registry"))));
     ("vpc", token vpc "VpcId");
     ("kubectlLayer", token ["KubectlLayer"] "Ref");
     ("defaultProfile.fargateProfileName", lit "default-fargate-profile")] [] ;;
  (* inside [new eks.FargateCluster]: CoreDNS is patched to run on Fargate,
     and the default profile is added with [addFargateProfile] *)
  declare (app clusterPath ["CoreDnsComputeTypePatch"]) KPatch
    [("resourceName", lit "deployment/coredns"); ("resourceNamespace", lit "kube-system")]
    [clusterPath] ;;
  addFargateProfile the_cluster "default-fargate-profile"
    [("fargateProfileName", lit "default-fargate-profile");
     ("selectors", lit "default,kube-system")] ;;
  addCoreFargateProfiles the_cluster ;;
  (* this.efsFileSystem.connections.allowDefaultPortFrom(cluster): an
     ingress rule on the file system's security group *)
  declare (app efs ["EfsSecurityGroup"; "from McpCluster:2049"]) KIngressRule
    [("groupId", token efs "SecurityGroupId");
     ("sourceSecurityGroupId", token clusterPath "ClusterSecurityGroupId");
     ("port", lit "2049")] [].

Definition createCertificate (p : CompleteProps) : M certificate :=
  if truthy (cp_certificateArn p) then
    declare ["ExistingCertificate"] KImportedCertificate
      [("certificateArn", lit (js_str (cp_certificateArn p)))] [] ;;
    ret (ImportedCertificate (js_str (cp_certificateArn p)))
  else if truthy (cp_hostedZoneId p) then
    (* the imported zone's [hostedZoneId] is the given id itself *)
    declare ["HostedZone"] KImportedHostedZone
      [("hostedZoneId", lit (js_str (cp_hostedZoneId p)))] [] ;;
    new_Certificate "McpGatewayCertificate" (js_str (cp_domainName p))
      [("subjectAlternativeNames", lit ("*." ++ js_str (cp_domainName p)));
       ("validation", lit ("DNS:" ++ js_str (cp_hostedZoneId p)));
       ("certificateName", lit ("mcp-gateway-" ++ js_str (cp_domainName p)))] ;;
    ret (CreatedCertificate ["McpGatewayCertificate"])
  else
    new_Certificate "McpGatewayCertificate" (js_str (cp_domainName p))
      [("subjectAlternativeNames", lit ("*." ++ js_str (cp_domainName p)));
       ("validation", lit "DNS");
       ("certificateName", lit ("mcp-gateway-" ++ js_str (cp_domainName p)))] ;;
    CfnOutput "CertificateDnsValidationRecords"
      (lit ("Check AWS Console ACM for DNS validation records for " ++ js_str (cp_domainName p)))
      "DNS validation records for SSL certificate" ;;
    ret (CreatedCertificate ["McpGatewayCertificate"]).

Definition default_callback_urls (p : CompleteProps) : list string :=
  ["http://localhost:9090/callback"; "http://localhost/oauth2/callback/cognito";
   "http://localhost:8888/oauth2/callback/cognito";
   "https://" ++ js_str (cp_domainName p) ++ "/oauth2/callback/cognito"].

Definition default_logout_urls (p : CompleteProps) : list string :=
  ["https://" ++ js_str (cp_domainName p) ++ "/auth/logout";
   "https://" ++ js_str (cp_domainName p) ++ "/logout"].

Definition createCognitoUserPool (p : CompleteProps) : M unit :=
  declare userPool KUserPool
    [("userPoolName", lit (js_str (js_or (cp_cognitoUserPoolName p)
                            (JStr ("mcp-gateway-users-" ++ js_str (cp_clusterName p))))));
     ("selfSignUpEnabled", lit "true")] [] ;;
  declare userPoolClient KUserPoolClient
    [("userPool", token userPool "UserPoolId");
     ("userPoolClientName", lit "mcp-gateway-client");
     ("generateSecret", lit "true");
     ("oAuth.callbackUrls", lit (join "," (match cp_cognitoCallbackUrls p with
                                            | Some l => l | None => default_callback_urls p end)));
     ("oAuth.logoutUrls", lit (join "," (match cp_cognitoLogoutUrls p with
                                          | Some l => l | None => default_logout_urls p end)))] [] ;;
  library_check (UserPoolClient_check (match cp_cognitoCallbackUrls p with
                                       | Some l => l | None => default_callback_urls p end)) ;;
  declare ["McpAdminGroup"] KUserPoolGroup
    [("userPoolId", token userPool "UserPoolId"); ("groupName", lit "mcp-registry-admin")] [] ;;
  declare ["McpUserGroup"] KUserPoolGroup
    [("userPoolId", token userPool "UserPoolId"); ("groupName", lit "mcp-registry-user")] [] ;;
  declare resourceServer KResourceServer
    [("userPool", token userPool "UserPoolId");
     ("identifier", lit "mcp-servers-unrestricted");
     ("scopes", lit "read,execute")] [] ;;
  declare ["McpM2MClient"] KUserPoolClient
    [("userPool", token userPool "UserPoolId");
     ("userPoolClientName", lit "mcp-agent-client");
     ("scopes", acat (token resourceServer "Ref") (lit "/read,execute"))] [] ;;
  new_UserPoolDomain "McpUserPoolDomain" [("userPool", token userPool "UserPoolId")]
    ("mcp-gateway-" ++ js_str (cp_clusterName p)) ;;
  declare ["McpAdminUser"] KUserPoolUser
    [("userPoolId", token userPool "UserPoolId");
     ("username", lit "admin");
     ("email", lit ("admin@" ++ js_str (cp_domainName p)))] [] ;;
  declare ["AdminUserGroupAttachment"] KUserToGroupAttachment
    [("userPoolId", token userPool "UserPoolId");
     ("username", lit "admin"); ("groupName", lit "mcp-registry-admin")] [].

Definition installManagedAddons : M unit :=
  declare ["CoreDnsAddon"] KAddon
    [("clusterName", c_clusterName the_cluster); ("addonName", lit "coredns");
     ("addonVersion", lit "v1.10.1-eksbuild.4")] [] ;;
  declare ["PodIdentityAddon"] KAddon
    [("clusterName", c_clusterName the_cluster); ("addonName", lit "eks-pod-identity-agent")] [].

Definition installMetricsServer : M unit :=
  addHelmChart the_cluster "MetricsServer"
    [("chart", lit "metrics-server"); ("namespace", lit "kube-system"); ("version", lit "3.12.1")].

(** The policy statements and managed policies the source attaches to the
    service accounts' roles change those roles only and are not modelled. *)
Definition installExternalDns (si : stack_info) : M unit :=
  let uniqueServiceAccountName := generateUniqueServiceAccountName si "external-dns" in
  addServiceAccount the_cluster "ExternalDns" uniqueServiceAccountName "kube-system" ;;
  addHelmChart the_cluster "ExternalDns"
    [("chart", lit "external-dns"); ("namespace", lit "kube-system");
     ("version", lit "1.14.3"); ("values.provider", lit "aws");
     ("values.serviceAccount.name", lit uniqueServiceAccountName)].

Definition installCoreEksAddons (si : stack_info) : M unit :=
  installManagedAddons ;; installMetricsServer ;; installExternalDns si.

Definition createRequiredNamespaces : M unit :=
  addManifest the_cluster "CloudWatchNamespace" "Namespace"
    [("metadata.name", lit "amazon-cloudwatch")] ;;
  addManifest the_cluster "ApplicationNamespace" "Namespace"
    [("metadata.name", lit "kubeflow-user-example-com")].

Definition addApplicationFargateProfiles (c : cluster) : M unit :=
  addFargateProfile c "MonitoringProfile"
    [("fargateProfileName", lit "monitoring-profile"); ("selectors", lit "amazon-cloudwatch")] ;;
  addFargateProfile c "ApplicationProfile"
    [("fargateProfileName", lit "application-profile"); ("selectors", lit "kubeflow-user-example-com")].

Definition enableContainerInsights (si : stack_info) : M unit :=
  addServiceAccount the_cluster "CloudWatchAgent"
    (generateUniqueServiceAccountName si "cloudwatch-agent") "amazon-cloudwatch" ;;
  addServiceAccount the_cluster "FluentBit"
    (generateUniqueServiceAccountName si "fluent-bit") "amazon-cloudwatch" ;;
  addManifest the_cluster "FluentBitDeployment" "Deployment"
    [("metadata.name", lit "fluent-bit"); ("metadata.namespace", lit "amazon-cloudwatch");
     ("serviceAccountName", lit (generateUniqueServiceAccountName si "fluent-bit"));
     ("env.AWS_REGION", lit (stack_region si));
     ("env.CLUSTER_NAME", c_clusterName the_cluster)].

Definition installAwsLoadBalancerController (si : stack_info) : M unit :=
  let uniqueServiceAccountName := generateUniqueServiceAccountName si "aws-load-balancer-controller" in
  addServiceAccount the_cluster "AWSLoadBalancerController" uniqueServiceAccountName "kube-system" ;;
  addHelmChart the_cluster "AWSLoadBalancerController"
    [("chart", lit "aws-load-balancer-controller"); ("namespace", lit "kube-system");
     ("values.clusterName", c_clusterName the_cluster);
     ("values.serviceAccount.name", lit uniqueServiceAccountName)].

Definition installEfsCsiDriver (si : stack_info) : M unit :=
  let saName := generateUniqueServiceAccountName si "efs-csi-controller-sa" in
  addServiceAccount the_cluster "EfsCsiController" saName "kube-system" ;;
  addHelmChart the_cluster "AwsEfsCsiDriver"
    [("chart", lit "aws-efs-csi-driver"); ("namespace", lit "kube-system");
     ("values.controller.serviceAccount.name", lit saName);
     ("values.node.serviceAccount.name", lit saName)] ;;
  addManifest the_cluster "EfsStorageClass" "StorageClass"
    [("metadata.name", lit "efs-sc"); ("provisioner", lit "efs.csi.aws.com");
     ("parameters.provisioningMode", lit "efs-ap");
     ("parameters.fileSystemId", token efs "Ref");
     ("parameters.directoryPerms", lit "755")] ;;
  addManifest the_cluster "EfsPersistentVolume" "PersistentVolume"
    [("metadata.name", lit "efs-pv"); ("spec.storageClassName", lit "efs-sc");
     ("spec.csi.volumeHandle", token efs "Ref"); ("spec.csi.volumeAttributes.path", lit "/mcp-gateway")].

(** [Math.random().toString(36).substring(2, 15) + Math.random().toString(36).substring(2, 15)] *)
Definition random_secret_key (w : world) : string :=
  substring 2 13 (random36 w 0) ++ substring 2 13 (random36 w 1).

(** [`auto-generated-secret-key-cdk-${Date.now()}`] *)
Definition timestamp_secret_key (w : world) : string :=
  "auto-generated-secret-key-cdk-" ++ string_of_Z (now w).

Definition deployMcpGatewayMicroservices (si : stack_info) (w : world) (cert : certificate)
    (p : CompleteProps) : M unit :=
  let namespace := "mcp-registry" in
  addManifest the_cluster "McpRegistryNamespace" "Namespace"
    [("metadata.name", lit namespace); ("metadata.labels.managed-by", lit "cdk")] ;;
  declare ["McpClusterFargateProfile"] KRole
    [("assumedBy", lit "eks-fargate-pods.amazonaws.com")] [] ;;
  new_FargateProfile ["McpRegistryFargateProfile"] the_cluster
    [("cluster", c_clusterName the_cluster); ("selectors", lit namespace);
     ("podExecutionRole", token ["McpClusterFargateProfile"] "Arn")] [] ;;
  EfsPvc "EfsPvc" the_cluster namespace (token efs "Ref") ;;
  let secretKey := random_secret_key w in
  let adminUser := lit (js_str (js_or (cp_adminUser p) (JStr "admin"))) in
  addManifest the_cluster "McpGatewayConfigMap" "ConfigMap"
    [("metadata.name", lit "mcp-gateway-config"); ("metadata.namespace", lit namespace);
     ("data.ADMIN_USER", adminUser);
     ("data.SECRET_KEY", lit (timestamp_secret_key w));
     ("data.AWS_REGION", lit (stack_region si));
     ("data.AUTH_SERVER_URL", lit "http://auth-server:8888");
     ("data.REGISTRY_URL", lit "http://registry:7860");
     ("data.MCPGW_SERVER_URL", lit "http://mcpgw-server:8003");
     ("data.CURRENTTIME_SERVER_URL", lit "http://currenttime-server:8000");
     ("data.FININFO_SERVER_URL", lit "http://fininfo-server:8001");
     ("data.FAKETOOLS_SERVER_URL", lit "http://faketools-server:8002");
     ("data.DOMAIN_NAME", lit (js_str (cp_domainName p)));
     ("data.EFS_FILE_SYSTEM_ID", token efs "Ref");
     ("data.CLUSTER_NAME", c_clusterName the_cluster)] ;;
  addManifest the_cluster "McpGatewaySecret" "Secret"
    [("metadata.name", lit "mcp-gateway-secrets"); ("metadata.namespace", lit namespace);
     ("stringData.admin-password", lit (js_str (cp_adminPassword p)));
     ("stringData.polygon-api-key", lit ""); ("stringData.github-client-id", lit "");
     ("stringData.github-client-secret", lit "")] ;;
  AuthServerDeployment "AuthServerDeployment"
    (mk_AuthServerDeploymentProps the_cluster namespace adminUser
       (lit (js_str (cp_adminPassword p))) (lit secretKey) (lit "http://registry:7860")
       (lit ("https://" ++ js_str (cp_domainName p)))
       (token userPoolClient "ClientId") (token userPoolClient "ClientSecret")
       (token userPool "UserPoolId") (lit (stack_region si))) ;;
  RegistryDeployment "RegistryDeployment"
    (mk_RegistryDeploymentProps the_cluster namespace adminUser
       (lit (js_str (cp_adminPassword p))) (lit secretKey) (lit (js_str (cp_domainName p)))
       (lit "http://auth-server:8888") (lit ("https://" ++ js_str (cp_domainName p)))
       (lit "http://registry:7860") (token efs "Ref")
       (token userPoolClient "ClientId") (token userPoolClient "ClientSecret")
       (token userPool "UserPoolId") (lit (stack_region si))) ;;
  CurrentTimeServerDeployment "CurrentTimeServerDeployment" the_cluster namespace (token efs "Ref") ;;
  FinInfoServerDeployment "FinInfoServerDeployment" the_cluster namespace (token efs "Ref") ;;
  FakeToolsServerDeployment "FakeToolsServerDeployment" the_cluster namespace (token efs "Ref") ;;
  McpGatewayServerDeployment "McpGatewayServerDeployment" the_cluster namespace (token efs "Ref") ;;
  AlbIngress "AlbIngress" the_cluster namespace
    (lit (js_str (cp_domainName p))) (certificate_arn cert).

Definition createOutputs (si : stack_info) (p : CompleteProps) (cert : certificate) : M unit :=
  CfnOutput "VpcId" (token vpc "VpcId") "VPC ID" ;;
  CfnOutput "ClusterName" (c_clusterName the_cluster) "EKS Cluster Name" ;;
  CfnOutput "ClusterEndpoint" (token clusterPath "Endpoint") "EKS Cluster Endpoint" ;;
  CfnOutput "EfsFileSystemId" (token efs "Ref") "EFS File System ID" ;;
  CfnOutput "CertificateArn" (certificate_arn cert) "SSL Certificate ARN" ;;
  CfnOutput "UserPoolId" (token userPool "UserPoolId") "Cognito User Pool ID" ;;
  CfnOutput "UserPoolClientId" (token userPoolClient "ClientId")
    "Cognito User Pool Client ID (for user authentication)" ;;
  CfnOutput "M2MClientId" (token ["McpM2MClient"] "ClientId")
    "Cognito M2M Client ID (for agent authentication)" ;;
  CfnOutput "CognitoDomain"
    (acat (lit "https://") (acat (token ["McpUserPoolDomain"] "DomainName")
       (lit (".auth." ++ stack_region si ++ ".amazoncognito.com"))))
    "Cognito Hosted UI Domain" ;;
  CfnOutput "ResourceServerIdentifier" (token resourceServer "UserPoolResourceServerId")
    "Cognito Resource Server Identifier" ;;
  CfnOutput "DomainName" (lit (js_str (cp_domainName p))) "Domain Name".

(** The constructor.  The application block runs when
    [props.deployApplications !== false]. *)
Definition McpgwCompleteInfrastructureStack (lib : library) (si : stack_info) (w : world)
    (p : CompleteProps) : M unit :=
  new_stack (stackName si) ;;
  createVpc lib si p ;;
  createEfsFileSystem p ;;
  createEksCluster p ;;
  cert <- createCertificate p ;;
  createCognitoUserPool p ;;
  installCoreEksAddons si ;;
  installAwsLoadBalancerController si ;;
  installEfsCsiDriver si ;;
  (if negb (js_strict_eq (cp_deployApplications p) (JBool false)) then
     createRequiredNamespaces ;;
     addApplicationFargateProfiles the_cluster ;;
     enableContainerInsights si ;;
     deployMcpGatewayMicroservices si w cert p
   else ret tt) ;;
  createOutputs si p cert.

End Complete.

(** ** [McpgwMicroservicesCdkStack] (lib/mcpgw-microservices-cdk-stack.ts) *)

Record MicroservicesProps : Type := mk_MicroservicesProps {
  mp_clusterName : jsval;
  mp_domainName : jsval;
  mp_efsFileSystemId : jsval;
  mp_certificateArn : jsval;
  mp_adminPassword : jsval;
  mp_adminUser : jsval;
  mp_hostedZoneId : jsval;
  mp_createCertificate : jsval;
  mp_cognitoClientId : jsval;
  mp_cognitoClientSecret : jsval;
  mp_cognitoUserPoolId : jsval
}.

Module Microservices.

Definition setupCertificate (p : MicroservicesProps) : M certificate :=
  if truthy (mp_certificateArn p) then
    declare ["ExistingCertificate"] KImportedCertificate
      [("certificateArn", lit (js_str (mp_certificateArn p)))] [] ;;
    ret (ImportedCertificate (js_str (mp_certificateArn p)))
  else if truthy (mp_createCertificate p) then
    (* the validation argument is evaluated before the certificate *)
    validation <- (if truthy (mp_hostedZoneId p) then
                     declare ["HostedZone"] KImportedHostedZone
                       [("hostedZoneId", lit (js_str (mp_hostedZoneId p)))] [] ;;
                     ret (lit ("DNS:" ++ js_str (mp_hostedZoneId p)))
                   else ret (lit "DNS")) ;;
    new_Certificate "McpGatewayCertificate" (js_str (mp_domainName p))
      [("validation", validation)] ;;
    CfnOutput "NewCertificateArn" (token ["McpGatewayCertificate"] "Ref")
      "ARN of the created SSL certificate" ;;
    ret (CreatedCertificate ["McpGatewayCertificate"])
  else
    throw (JsError "Either certificateArn or createCertificate must be provided").

(** [props.x || process.env.X || ''] *)
Definition prop_env_or_empty (r : raw) (v : jsval) (var : string) : attr :=
  lit (js_str (js_or v (js_or (process_env r var) (JStr "")))).

Definition deployMicroservicesArchitecture (si : stack_info) (r : raw) (w : world)
    (cert : certificate) (p : MicroservicesProps) : M unit :=
  let clusterName := js_str (js_or (mp_clusterName p) (JStr "mcp-gateway-registry")) in
  let namespace := "mcp-registry" in
  let adminUser := lit (js_str (js_or (mp_adminUser p) (JStr "admin"))) in
  let efsId := lit (js_str (mp_efsFileSystemId p)) in
  declare ["ExistingCluster"] KImportedCluster
    [("clusterName", lit clusterName);
     ("kubectlRoleArn", lit ("arn:aws:iam::" ++ stack_account si ++ ":role/" ++ clusterName
                             ++ "-kubectl-role"))] [] ;;
  let c := mk_cluster ["ExistingCluster"] (lit clusterName) in
  addManifest c "McpRegistryNamespace" "Namespace"
    [("metadata.name", lit namespace); ("metadata.labels.managed-by", lit "cdk")] ;;
  EfsPvc "EfsPvc" c namespace efsId ;;
  let secretKey := Complete.random_secret_key w in
  addManifest c "McpGatewayConfigMap" "ConfigMap"
    [("metadata.name", lit "mcp-gateway-config"); ("metadata.namespace", lit namespace);
     ("data.ADMIN_USER", adminUser);
     ("data.SECRET_KEY", lit (Complete.timestamp_secret_key w));
     ("data.AWS_REGION", lit (stack_region si));
     ("data.AUTH_SERVER_URL", lit "http://auth-server:8888");
     ("data.REGISTRY_URL", lit "http://registry:7860");
     ("data.MCPGW_SERVER_URL", lit "http://mcpgw-server:8003");
     ("data.CURRENTTIME_SERVER_URL", lit "http://currenttime-server:8000");
     ("data.FININFO_SERVER_URL", lit "http://fininfo-server:8001");
     ("data.FAKETOOLS_SERVER_URL", lit "http://faketools-server:8002");
     ("data.DOMAIN_NAME", lit (js_str (mp_domainName p)));
     ("data.EFS_FILE_SYSTEM_ID", efsId);
     ("data.CLUSTER_NAME", lit clusterName)] ;;
  addManifest c "McpGatewaySecret" "Secret"
    [("metadata.name", lit "mcp-gateway-secrets"); ("metadata.namespace", lit namespace);
     ("stringData.admin-password", lit (js_str (mp_adminPassword p)));
     ("stringData.polygon-api-key", lit ""); ("stringData.github-client-id", lit "");
     ("stringData.github-client-secret", lit "")] ;;
  AuthServerDeployment "AuthServerDeployment"
    (mk_AuthServerDeploymentProps c namespace adminUser
       (lit (js_str (mp_adminPassword p))) (lit secretKey) (lit "http://registry:7860")
       (lit ("https://" ++ js_str (mp_domainName p)))
       (prop_env_or_empty r (mp_cognitoClientId p) "COGNITO_CLIENT_ID")
       (prop_env_or_empty r (mp_cognitoClientSecret p) "COGNITO_CLIENT_SECRET")
       (prop_env_or_empty r (mp_cognitoUserPoolId p) "COGNITO_USER_POOL_ID")
       (lit (stack_region si))) ;;
  RegistryDeployment "RegistryDeployment"
    (mk_RegistryDeploymentProps c namespace adminUser
       (lit (js_str (mp_adminPassword p))) (lit secretKey) (lit (js_str (mp_domainName p)))
       (lit "http://auth-server:8888") (lit ("https://" ++ js_str (mp_domainName p)))
       (lit "http://registry:7860") efsId
       (prop_env_or_empty r (mp_cognitoClientId p) "COGNITO_CLIENT_ID")
       (prop_env_or_empty r (mp_cognitoClientSecret p) "COGNITO_CLIENT_SECRET")
       (prop_env_or_empty r (mp_cognitoUserPoolId p) "COGNITO_USER_POOL_ID")
       (lit (stack_region si))) ;;
  CurrentTimeServerDeployment "CurrentTimeServerDeployment" c namespace efsId ;;
  FinInfoServerDeployment "FinInfoServerDeployment" c namespace efsId ;;
  FakeToolsServerDeployment "FakeToolsServerDeployment" c namespace efsId ;;
  McpGatewayServerDeployment "McpGatewayServerDeployment" c namespace efsId ;;
  AlbIngress "AlbIngress" c namespace (lit (js_str (mp_domainName p))) (certificate_arn cert).

Definition createOutputs (cert : certificate) (p : MicroservicesProps) : M unit :=
  CfnOutput "ClusterName" (lit (js_str (js_or (mp_clusterName p) (JStr "mcp-gateway-registry"))))
    "EKS Cluster Name" ;;
  CfnOutput "DomainName" (lit (js_str (mp_domainName p))) "Domain Name" ;;
  CfnOutput "DomainUrl" (lit ("https://" ++ js_str (mp_domainName p)))
    "URL to access the MCP Gateway Registry" ;;
  CfnOutput "EfsFileSystemId" (lit (js_str (mp_efsFileSystemId p))) "EFS File System ID" ;;
  CfnOutput "CertificateArn" (certificate_arn cert) "SSL Certificate ARN" ;;
  CfnOutput "Namespace" (lit "mcp-registry") "Kubernetes namespace for MCP Gateway services" ;;
  CfnOutput "Services" (lit "{auth-server,registry,mcpgw-server,currenttime-server,fininfo-server,faketools-server}")
    "Internal service URLs" ;;
  CfnOutput "DeploymentInstructions"
    (lit ("1. ... 6. Access application: https://" ++ js_str (mp_domainName p)))
    "Post-deployment verification steps".

Definition McpgwMicroservicesCdkStack (si : stack_info) (r : raw) (w : world)
    (p : MicroservicesProps) : M unit :=
  new_stack (stackName si) ;;
  cert <- setupCertificate p ;;
  deployMicroservicesArchitecture si r w cert p ;;
  createOutputs cert p.

End Microservices.

(** ** The entry point (part_000) *)

(** [env: { account: process.env.CDK_DEFAULT_ACCOUNT, region: process.env.CDK_DEFAULT_REGION || 'us-east-1' }]
    as the stack sees it: an undefined account is the deploy-time token. *)
Definition env_region (r : raw) : string := js_str (region r).

Definition env_account (r : raw) : string :=
  if truthy (account r) then js_str (account r) else "${Token[AWS.AccountId]}".

Definition stack_env (r : raw) (id : string) : stack_info :=
  mk_stack_info id (env_region r) (env_account r).

(** [createCertificate: createCertificate || !certificateArn] *)
Definition createCertificate_prop (r : raw) : jsval :=
  js_or (createCertificate r) (js_not (certificateArn r)).

(** The props object of the [complete] and [infrastructure-only] branches;
    they differ only in [deployApplications] (absent, or [false]). *)
Definition complete_props (r : raw) (deployApplications : jsval) : CompleteProps :=
  mk_CompleteProps
    (domainName r) (adminPassword r) JUndef (hostedZoneId r) (certificateArn r)
    (createCertificate_prop r) (vpcCidr r) (maxAzs r) (clusterName r)
    (if js_strict_eq (kubernetesVersion r) (JStr "1.28") then JStr "1.28"
     else if js_strict_eq (kubernetesVersion r) (JStr "1.27") then JStr "1.27"
     else JStr "1.28")
    (JStr "generalPurpose") (JStr "bursting")
    (JStr ("mcp-gateway-users-" ++ js_str (clusterName r)))
    (Some ["http://localhost:9090/callback"; "http://localhost/oauth2/callback/cognito";
           "http://localhost:8888/oauth2/callback/cognito";
           "https://" ++ js_str (domainName r) ++ "/oauth2/callback/cognito"])
    (Some ["https://" ++ js_str (domainName r) ++ "/auth/logout";
           "https://" ++ js_str (domainName r) ++ "/logout"])
    deployApplications.

Definition microservices_props (r : raw) : MicroservicesProps :=
  mk_MicroservicesProps
    (clusterName r) (domainName r) (efsFileSystemId r) (certificateArn r)
    (adminPassword r) JUndef (hostedZoneId r) (createCertificate_prop r)
    JUndef JUndef JUndef.

Definition domainName_required_msg : string :=
  "domainName is required. Set via context or DOMAIN_NAME environment variable.".
Definition adminPassword_required_msg : string :=
  "adminPassword is required. Set via context or ADMIN_PASSWORD environment variable.".
Definition efsFileSystemId_required_msg : string :=
  "efsFileSystemId is required for application-only mode. Set via context or EFS_FILE_SYSTEM_ID environment variable.".
Definition invalid_mode_msg (mode : jsval) : string :=
  "Invalid deployment mode: " ++ js_str mode
  ++ ". Use 'complete', 'infrastructure-only', or 'application-only'.".

(** The top-level statements after [const app = new cdk.App()]. *)
Definition app_main (lib : library) (r : raw) (w : world) : M unit :=
  if negb (truthy (domainName r)) then throw (JsError domainName_required_msg)
  else if negb (truthy (adminPassword r)) then throw (JsError adminPassword_required_msg)
  else if js_strict_eq (deploymentMode r) (JStr "complete") then
    Complete.McpgwCompleteInfrastructureStack lib
      (stack_env r "McpgwCompleteInfrastructureStack") w (complete_props r JUndef)
  else if js_strict_eq (deploymentMode r) (JStr "infrastructure-only") then
    Complete.McpgwCompleteInfrastructureStack lib
      (stack_env r "McpgwInfrastructureStackFresh") w (complete_props r (JBool false))
  else if js_strict_eq (deploymentMode r) (JStr "application-only") then
    if negb (truthy (efsFileSystemId r)) then throw (JsError efsFileSystemId_required_msg)
    else Microservices.McpgwMicroservicesCdkStack
           (stack_env r "McpgwMicroservicesCdkStack") r w (microservices_props r)
  else throw (JsError (invalid_mode_msg (deploymentMode r))).

(** One invocation: the outcome and the app built so far. *)
Definition main (lib : library) (r : raw) (w : world) : result unit * state :=
  app_main lib r w empty_state.

(** The deployment graph, when the invocation ends without an exception. *)
Definition graph (lib : library) (r : raw) (w : world) : option (list decl) :=
  match main lib r w with
  | (ROk _, s) => Some (st_decls s)
  | (RErr _, _) => None
  end.

(** The declarations made by an invocation, whether or not it failed. *)
Definition trace (lib : library) (r : raw) (w : world) : list decl := st_decls (snd (main lib r w)).

Definition outcome (lib : library) (r : raw) (w : world) : result unit := fst (main lib r w).

(** * Properties *)

(** ** Observations on a deployment graph *)

Definition find_decl (g : list decl) (p : path) : option decl :=
  find (fun d => path_eqb (d_path d) p) g.

(** The value written under [key] into the declaration at path [p]. *)
Definition config_value (g : list decl) (p : path) (key : string) : option string :=
  match find_decl g p with
  | Some d => assoc key (d_props d)
  | None => None
  end.

Definition kind_at (g : list decl) (p : path) : option kind := option_map d_kind (find_decl g p).

(** The storage claims named by the workloads' volumes. *)
Definition claim_names (g : list decl) : list string :=
  flat_map (fun d => match assoc "volumes.efs-storage.claimName" (d_props d) with
                     | Some c => [c]
                     | None => []
                     end) g.

(** The names of the PersistentVolumeClaim manifests. *)
Definition pvc_names (g : list decl) : list string :=
  flat_map (fun d => if kind_eqb (d_kind d) (KManifest "PersistentVolumeClaim")
                     then match assoc "metadata.name" (d_props d) with
                          | Some n => [n]
                          | None => []
                          end
                     else []) g.

(** Inputs that pass every check of the entry point. *)
Definition accepted (r : raw) : bool :=
  truthy (domainName r) && truthy (adminPassword r) &&
  (js_strict_eq (deploymentMode r) (JStr "complete")
   || js_strict_eq (deploymentMode r) (JStr "infrastructure-only")
   || (js_strict_eq (deploymentMode r) (JStr "application-only")
       && truthy (efsFileSystemId r))).

(** The precedence rule as the specification words it: the first source
    holding a non-empty value, else the default. *)
Fixpoint first_non_empty (sources : list (option string)) (default : jsval) : jsval :=
  match sources with
  | [] => default
  | Some s :: rest => if String.eqb s "" then first_non_empty rest default else JStr s
  | None :: rest => first_non_empty rest default
  end.

(** ** The library's checks on the resolved input *)

(** The VPC of the complete and infrastructure-only stacks passes the
    library's checks: [ec2.IpAddresses.cidr] accepts the resolved CIDR
    block, and [new ec2.Vpc] accepts it with [props.maxAzs || 3] in the
    stack's environment. *)
Definition vpc_network_accepted (lib : library) (r : raw) : bool :=
  match ipAddresses_cidr_error lib (js_str (vpcCidr r)),
        vpc_error lib (env_region r) (env_account r) (js_str (vpcCidr r))
          (js_or (maxAzs r) (JNum (Some 3%Z))) with
  | None, None => true
  | _, _ => false
  end.

(** The prefix [mcp-gateway-<clusterName>] of the Cognito domain matches
    [/^[a-z0-9-]+$/]. *)
Definition cognito_prefix_accepted (r : raw) : bool :=
  domainPrefix_matches ("mcp-gateway-" ++ js_str (clusterName r)).

(** A certificate is created only without an ARN, for the resolved domain
    name: that name is then at most 64 characters long. *)
Definition certificate_accepted (r : raw) : bool :=
  truthy (certificateArn r) || negb (long_domainName (js_str (domainName r))).

(** Every check of the library that the run of the resolved mode meets
    passes: the certificate's in every mode, the VPC's and the Cognito
    domain's in the complete and infrastructure-only modes. *)
Definition library_checks_pass (lib : library) (r : raw) : bool :=
  certificate_accepted r &&
  (js_strict_eq (deploymentMode r) (JStr "application-only")
   || vpc_network_accepted lib r && cognito_prefix_accepted r).

(** ** Erasing the generated secrets

    The configuration values computed from [Date.now()] (the ConfigMap's
    [SECRET_KEY]) and from [Math.random()] (the [SECRET_KEY] variable of the
    auth-server and registry containers). *)
Definition is_secret_key (k : string) : bool :=
  String.eqb k "data.SECRET_KEY" || String.eqb k "env.SECRET_KEY".

Definition erase_prop (kv : string * string) : string * string :=
  if is_secret_key (fst kv) then (fst kv, "") else kv.

Definition erase_decl (d : decl) : decl :=
  mk_decl (d_path d) (d_kind d) (map erase_prop (d_props d)) (d_deps d).

Definition erase_state (s : state) : state :=
  mk_state (st_stacks s) (map erase_decl (st_decls s)).

(** Two computations are related when, from states equal up to the
    secrets, they give equal results and states equal up to the secrets. *)
Definition sim {A} (m1 m2 : M A) : Prop :=
  forall s1 s2, erase_state s1 = erase_state s2 ->
  fst (m1 s1) = fst (m2 s2) /\ erase_state (snd (m1 s1)) = erase_state (snd (m2 s2)).

(** Two configuration entries agree when they have the same key and
    references, and the same value unless the key is a secret. *)
Definition prop_agree (a b : string * attr) : Prop :=
  fst a = fst b /\ a_refs (snd a) = a_refs (snd b) /\
  (a_val (snd a) = a_val (snd b) \/ is_secret_key (fst a) = true).

Definition is_manifest (d : decl) : bool :=
  match d_kind d with KManifest _ => true | _ => false end.

(** The Kubernetes manifests of a graph, in order. *)
Definition manifest_paths (g : list decl) : list path := map d_path (filter is_manifest g).

Definition deps_at (g : list decl) (p : path) : option (list path) :=
  option_map d_deps (find_decl g p).

(** The stack the tests of part_003 build directly, with the props of the
    tests: the full set, and the set of empty required values. *)
Definition test_stack : stack_info :=
  mk_stack_info "MyTestStack" "${Token[AWS.Region]}" "${Token[AWS.AccountId]}".

Definition test_props : MicroservicesProps :=
  mk_MicroservicesProps (JStr "test-cluster") (JStr "test.example.com") (JStr "fs-test123")
    (JStr "arn:aws:acm:us-east-1:123456789012:certificate/test") (JStr "test-password")
    JUndef JUndef JUndef JUndef JUndef JUndef.

Definition test_props_empty : MicroservicesProps :=
  mk_MicroservicesProps JUndef (JStr "") (JStr "") (JStr "") (JStr "")
    JUndef JUndef JUndef JUndef JUndef JUndef.

(** ** Concrete inputs *)

(** A library whose VPC checks accept every input.  aws-cdk-lib accepts the
    VPCs of the concrete inputs below: the CIDR block [10.0.0.0/16] with at
    most 3 availability zones, the stacks' environments having no account,
    so that the zones are the two of an environment-agnostic stack. *)
Definition lib_network_ok : library := mk_library (fun _ => None) (fun _ _ _ _ => None).

Definition w_a : world :=
  mk_world 1700000000000 (fun n => if Nat.eqb n 0 then "0.4fzyo82mvyr" else "0.k2j3h4g5f6d").
Definition w_b : world :=
  mk_world 1700000000001 (fun n => if Nat.eqb n 0 then "0.4fzyo82mvyr" else "0.k2j3h4g5f6d").

Definition r_complete : raw :=
  mk_raw [("domainName", "x.example.com"); ("adminPassword", "p")] [].
Definition r_infra : raw :=
  mk_raw [("deploymentMode", "infrastructure-only");
          ("domainName", "x.example.com"); ("adminPassword", "p")] [].
Definition r_app : raw :=
  mk_raw [("deploymentMode", "application-only"); ("domainName", "x.example.com");
          ("adminPassword", "p"); ("efsFileSystemId", "fs-1")] [].
Definition r_app_empty_efs : raw :=
  mk_raw [("deploymentMode", "application-only"); ("domainName", "x.example.com");
          ("adminPassword", "p"); ("efsFileSystemId", "")] [].
Definition r_app_empty_efs_no_domain : raw :=
  mk_raw [("deploymentMode", "application-only"); ("adminPassword", "p");
          ("efsFileSystemId", "")] [].
Definition r_no_password : raw := mk_raw [("domainName", "x.example.com")] [].
Definition r_nothing : raw := mk_raw [] [].
Definition r_staging : raw :=
  mk_raw [("deploymentMode", "staging"); ("domainName", "x.example.com");
          ("adminPassword", "p")] [].
Definition r_staging_no_domain : raw :=
  mk_raw [("deploymentMode", "staging")] [("ADMIN_PASSWORD", "p")].
Definition r_env_create_certificate : raw := mk_raw [] [("CREATE_CERTIFICATE", "yes")].
Definition r_bad_maxAzs : raw :=
  mk_raw [("deploymentMode", "infrastructure-only"); ("domainName", "x.example.com");
          ("adminPassword", "p"); ("maxAzs", "abc")] [].
Definition r_long_domain : raw :=
  mk_raw [("deploymentMode", "application-only");
          ("domainName", "mcp-gateway-registry.platform-engineering.eu-central-1.example.com");
          ("adminPassword", "p"); ("efsFileSystemId", "fs-1")] [].
Definition r_bad_cluster_name : raw :=
  mk_raw [("deploymentMode", "infrastructure-only"); ("domainName", "x.example.com");
          ("adminPassword", "p"); ("clusterName", "MyCluster")] [].
Definition r_app_arn : raw :=
  mk_raw [("deploymentMode", "application-only"); ("domainName", "x.example.com");
          ("adminPassword", "p"); ("efsFileSystemId", "fs-1");
          ("certificateArn", "arn:aws:acm:us-east-1:111122223333:certificate/abc");
          ("createCertificate", "true")] [].

(** ** Proof tools *)

(** The resolved [vpcCidr] is never empty. *)
Lemma vpcCidr_or r : js_or (vpcCidr r) (JStr "10.0.0.0/16") = vpcCidr r.
Proof.
  unfold vpcCidr, js_or.
  destruct (truthy (tryGetContext r "vpcCidr")) eqn:E1; [rewrite E1; reflexivity|].
  destruct (truthy (process_env r "VPC_CIDR")) eqn:E2; simpl; rewrite ?E1, ?E2; reflexivity.
Qed.


Ltac agree_elem :=
  split; [reflexivity | split; [reflexivity | first [right; reflexivity | left; reflexivity]]].

(** Symbolic execution of one invocation: the entry point, the stack
    constructors and their certificate branches are unfolded, the props
    objects built by the entry point are projected. *)
Ltac unfold_run :=
  unfold outcome, trace, graph, main, app_main,
    Complete.McpgwCompleteInfrastructureStack, Complete.createVpc, Complete.createCertificate,
    Complete.createCognitoUserPool,
    Microservices.McpgwMicroservicesCdkStack, Microservices.setupCertificate,
    new_Certificate, new_UserPoolDomain, Certificate_check, UserPoolDomain_check;
  cbn [complete_props microservices_props stack_env stack_region stack_account
       cp_certificateArn cp_hostedZoneId cp_maxAzs cp_vpcCidr cp_domainName cp_clusterName
       cp_deployApplications mp_certificateArn mp_createCertificate mp_hostedZoneId
       mp_efsFileSystemId mp_domainName];
  rewrite ?vpcCidr_or.

(** The verdicts of the library's checks in a run: those a hypothesis
    fixes are rewritten (a hypothesis on the checks of the complete and
    infrastructure-only modes is first applied to the run's mode), the
    others are split on. *)
Ltac checks_split :=
  repeat match goal with
  | H : js_strict_eq (deploymentMode ?r) _ = false -> _, Hm : deploymentMode ?r = _ |- _ =>
      specialize (H ltac:(rewrite Hm; reflexivity))
  | H : ipAddresses_cidr_error _ _ = _ /\ _ |- _ => destruct H
  | H : vpc_error _ _ _ _ _ = _ /\ _ |- _ => destruct H
  | H : ipAddresses_cidr_error _ _ = _ |- _ => progress rewrite H
  | H : vpc_error _ _ _ _ _ = _ |- _ => progress rewrite H
  | H : long_domainName _ = _ |- _ => progress rewrite H
  | H : domainPrefix_matches _ = _ |- _ => progress rewrite H
  end;
  repeat match goal with
  | |- context [ipAddresses_cidr_error ?l ?c] => destruct (ipAddresses_cidr_error l c) eqn:?
  | |- context [vpc_error ?l ?a ?b ?c ?d] => destruct (vpc_error l a b c d) eqn:?
  | |- context [long_domainName ?d] => destruct (long_domainName d) eqn:?
  | |- context [domainPrefix_matches ?d] => destruct (domainPrefix_matches d) eqn:?
  end.

(** ** Lemmas *)

Lemma efsFileSystemId_cases r :
  efsFileSystemId r = JUndef \/ exists s, efsFileSystemId r = JStr s.
Proof.
  unfold efsFileSystemId, js_or, tryGetContext, process_env, of_opt.
  destruct (assoc "efsFileSystemId" (context r)) as [s|];
    destruct (assoc "EFS_FILE_SYSTEM_ID" (environ r)) as [t|];
    repeat match goal with |- context [if ?b then _ else _] => destruct b end; eauto.
Qed.

(** The application-only run at [r_app] builds its graph. *)
Lemma application_only_example_succeeds : outcome lib_network_ok r_app w_a = ROk tt.
Proof. vm_compute. reflexivity. Qed.

(** The infrastructure-only run at [r_infra] builds its graph. *)
Lemma infrastructure_only_example_succeeds : outcome lib_network_ok r_infra w_a = ROk tt.
Proof. vm_compute. reflexivity. Qed.

Lemma vpc_network_accepted_spec lib r :
  vpc_network_accepted lib r = true ->
  ipAddresses_cidr_error lib (js_str (vpcCidr r)) = None /\
  vpc_error lib (env_region r) (env_account r) (js_str (vpcCidr r))
    (js_or (maxAzs r) (JNum (Some 3%Z))) = None.
Proof.
  unfold vpc_network_accepted.
  destruct (ipAddresses_cidr_error _ _), (vpc_error _ _ _ _ _); intro H;
    first [discriminate H | split; reflexivity].
Qed.

Lemma certificate_accepted_spec r :
  certificate_accepted r = true -> truthy (certificateArn r) = false ->
  long_domainName (js_str (domainName r)) = false.
Proof.
  unfold certificate_accepted. intros H E. rewrite E in H. simpl in H.
  destruct (long_domainName _); [discriminate H | reflexivity].
Qed.

Lemma library_checks_pass_spec lib r :
  library_checks_pass lib r = true ->
  (truthy (certificateArn r) = false -> long_domainName (js_str (domainName r)) = false) /\
  (js_strict_eq (deploymentMode r) (JStr "application-only") = false ->
   ipAddresses_cidr_error lib (js_str (vpcCidr r)) = None /\
   vpc_error lib (env_region r) (env_account r) (js_str (vpcCidr r))
     (js_or (maxAzs r) (JNum (Some 3%Z))) = None /\
   domainPrefix_matches ("mcp-gateway-" ++ js_str (clusterName r)) = true).
Proof.
  unfold library_checks_pass. intro H.
  apply andb_prop in H as [Hc Hm]. split; [apply certificate_accepted_spec; exact Hc|].
  intro Ha. rewrite Ha in Hm. cbn [orb] in Hm. apply andb_prop in Hm as [Hv Hp].
  destruct (vpc_network_accepted_spec lib r Hv) as [H1 H2]. auto.
Qed.

Lemma vpc_network_mode_spec lib r :
  (js_strict_eq (deploymentMode r) (JStr "application-only") = true \/
   vpc_network_accepted lib r = true) ->
  js_strict_eq (deploymentMode r) (JStr "application-only") = false ->
  ipAddresses_cidr_error lib (js_str (vpcCidr r)) = None /\
  vpc_error lib (env_region r) (env_account r) (js_str (vpcCidr r))
    (js_or (maxAzs r) (JNum (Some 3%Z))) = None.
Proof.
  intros [H|H] Ha; [rewrite Ha in H; discriminate H|].
  apply vpc_network_accepted_spec; exact H.
Qed.

Lemma long_domainName_le d :
  String.length d <= 64 -> long_domainName d = false.
Proof. intro H. unfold long_domainName. apply Nat.ltb_ge. exact H. Qed.

Lemma truthy_js_or a b : truthy (js_or a b) = truthy a || truthy b.
Proof. unfold js_or; destruct (truthy a) eqn:E; simpl; auto. Qed.

Lemma js_or_same a : js_or a a = a.
Proof. unfold js_or; destruct (truthy a); reflexivity. Qed.

Lemma js_strict_eq_JStr v s : js_strict_eq v (JStr s) = true -> v = JStr s.
Proof.
  destruct v as [|t|b|[n|]]; simpl; intro H; try discriminate.
  apply String.eqb_eq in H; subst; reflexivity.
Qed.

Lemma first_non_empty_cons o l d :
  first_non_empty (o :: l) d = js_or (of_opt o) (first_non_empty l d).
Proof.
  destruct o as [s|]; simpl; [|reflexivity].
  unfold js_or; simpl; destruct (String.eqb s ""); reflexivity.
Qed.

Lemma createCertificate_prop_no_arn r :
  truthy (certificateArn r) = false -> truthy (createCertificate_prop r) = true.
Proof.
  intro H. unfold createCertificate_prop, js_not.
  rewrite truthy_js_or, H. simpl. apply orb_true_r.
Qed.

Lemma accepted_cases r :
  accepted r = true ->
  truthy (domainName r) = true /\ truthy (adminPassword r) = true /\
  (deploymentMode r = JStr "complete" \/ deploymentMode r = JStr "infrastructure-only" \/
   (deploymentMode r = JStr "application-only" /\ truthy (efsFileSystemId r) = true)).
Proof.
  unfold accepted. intro H.
  apply andb_prop in H as [H Hm]; apply andb_prop in H as [Hd Hp].
  repeat split; auto.
  apply orb_prop in Hm as [Hm|Hm]; [apply orb_prop in Hm as [Hm|Hm]|].
  - left; apply js_strict_eq_JStr; exact Hm.
  - right; left; apply js_strict_eq_JStr; exact Hm.
  - apply andb_prop in Hm as [Hm He]. right; right; split; auto.
    apply js_strict_eq_JStr; exact Hm.
Qed.

(** *** The simulation up to secrets *)

Lemma agree_refl l : Forall2 prop_agree l l.
Proof. induction l; constructor; auto. repeat split; auto. Qed.

Lemma agree_vals l1 l2 :
  Forall2 prop_agree l1 l2 ->
  map erase_prop (map (fun kv => (fst kv, a_val (snd kv))) l1)
  = map erase_prop (map (fun kv => (fst kv, a_val (snd kv))) l2).
Proof.
  induction 1 as [| [k1 v1] [k2 v2] l1 l2 [Hk [_ Hv]] _ IH]; [reflexivity|].
  simpl in *. subst k2. rewrite IH. unfold erase_prop; simpl.
  destruct Hv as [Hv|Hv]; rewrite Hv; reflexivity.
Qed.

Lemma agree_refs l1 l2 :
  Forall2 prop_agree l1 l2 ->
  flat_map (fun kv => a_refs (snd kv)) l1 = flat_map (fun kv => a_refs (snd kv)) l2.
Proof.
  induction 1 as [| [k1 v1] [k2 v2] l1 l2 [_ [Hr _]] _ IH]; [reflexivity|].
  simpl in *. rewrite Hr, IH. reflexivity.
Qed.

Lemma erase_paths l : map d_path (map erase_decl l) = map d_path l.
Proof. rewrite map_map. reflexivity. Qed.

Lemma sim_ret {A} (a : A) : sim (ret a) (ret a).
Proof. intros s1 s2 H. split; auto. Qed.

Lemma sim_throw {A} (e : error) : @sim A (throw e) (throw e).
Proof. intros s1 s2 H. split; auto. Qed.

Lemma sim_new_stack id : sim (new_stack id) (new_stack id).
Proof.
  intros [st1 d1] [st2 d2] H. unfold erase_state in *; simpl in *.
  injection H as H1 H2. subst. split; [reflexivity|]. rewrite H2. reflexivity.
Qed.

Lemma sim_bind {A B} (m1 m2 : M A) (k1 k2 : A -> M B) :
  sim m1 m2 -> (forall a, sim (k1 a) (k2 a)) -> sim (bind m1 k1) (bind m2 k2).
Proof.
  intros Hm Hk s1 s2 H. unfold bind.
  specialize (Hm s1 s2 H).
  destruct (m1 s1) as [[a1|e1] s1'], (m2 s2) as [[a2|e2] s2'];
    simpl in Hm; destruct Hm as [Hr Hs]; try discriminate.
  - injection Hr as <-. apply Hk; assumption.
  - injection Hr as <-. split; auto.
Qed.

Lemma sim_declare p k props1 props2 deps :
  Forall2 prop_agree props1 props2 -> sim (declare p k props1 deps) (declare p k props2 deps).
Proof.
  intros Hag [st1 d1] [st2 d2] H. unfold erase_state in H; simpl in H.
  injection H as Hst Hd. subst st2.
  unfold declare; simpl.
  assert (Hp : map d_path d1 = map d_path d2).
  { rewrite <- (erase_paths d1), <- (erase_paths d2), Hd. reflexivity. }
  rewrite Hp. destruct (existsb (path_eqb p) (map d_path d2)); simpl.
  - split; [reflexivity|]. unfold erase_state; simpl. rewrite Hd. reflexivity.
  - split; [reflexivity|]. unfold erase_state; simpl.
    rewrite !map_app, Hd. simpl. unfold erase_decl; simpl.
    rewrite (agree_vals _ _ Hag), (agree_refs _ _ Hag). reflexivity.
Qed.

Lemma sim_library_check v : sim (library_check v) (library_check v).
Proof. destruct v; [apply sim_throw | apply sim_ret]. Qed.

Lemma sim_awsAuth c : sim (awsAuth c) (awsAuth c).
Proof.
  intros s1 s2 H. unfold awsAuth.
  assert (Hp : map d_path (st_decls s1) = map d_path (st_decls s2)).
  { rewrite <- (erase_paths (st_decls s1)), <- (erase_paths (st_decls s2)).
    destruct s1, s2; unfold erase_state in H; simpl in *.
    injection H as _ Hd. rewrite Hd. reflexivity. }
  rewrite Hp. destruct (existsb _ _); [split; auto|].
  clear Hp. revert s1 s2 H. apply sim_bind; [apply sim_declare, agree_refl|].
  intros _. apply sim_declare, agree_refl.
Qed.

Lemma sim_if {A} (c : bool) (a1 a2 b1 b2 : M A) :
  sim a1 a2 -> sim b1 b2 -> sim (if c then a1 else b1) (if c then a2 else b2).
Proof. destruct c; auto. Qed.

Ltac props_agree :=
  lazymatch goal with
  | |- Forall2 _ (_ :: _) (_ :: _) => apply Forall2_cons; [agree_elem | props_agree]
  | |- Forall2 _ (app _ _) (app _ _) => apply Forall2_app; props_agree
  | |- Forall2 _ [] [] => apply Forall2_nil
  | |- _ => apply agree_refl
  end.

Ltac sim_step :=
  match goal with
  | |- sim (bind _ _) (bind _ _) => apply sim_bind; [| intros ?; cbv beta]
  | |- sim (if _ then _ else _) (if _ then _ else _) => apply sim_if
  | |- sim (declare _ _ _ _) (declare _ _ _ _) => apply sim_declare; props_agree
  | |- sim (ret _) (ret _) => apply sim_ret
  | |- sim (throw _) (throw _) => apply sim_throw
  | |- sim (new_stack _) (new_stack _) => apply sim_new_stack
  | |- sim (library_check _) (library_check _) => apply sim_library_check
  | |- sim (awsAuth _) (awsAuth _) => apply sim_awsAuth
  end.

Lemma sim_app_main lib r w1 w2 : sim (app_main lib r w1) (app_main lib r w2).
Proof.
  cbv beta zeta delta [app_main
    Complete.McpgwCompleteInfrastructureStack Complete.createVpc Complete.createEfsFileSystem
    Complete.addCoreFargateProfiles Complete.createEksCluster Complete.createCertificate
    Complete.createCognitoUserPool Complete.installManagedAddons Complete.installMetricsServer
    Complete.installExternalDns Complete.installCoreEksAddons Complete.createRequiredNamespaces
    Complete.addApplicationFargateProfiles Complete.enableContainerInsights
    Complete.installAwsLoadBalancerController Complete.installEfsCsiDriver
    Complete.deployMcpGatewayMicroservices Complete.createOutputs
    Microservices.McpgwMicroservicesCdkStack Microservices.setupCertificate
    Microservices.deployMicroservicesArchitecture Microservices.createOutputs
    EfsPvc AuthServerDeployment RegistryDeployment tool_server CurrentTimeServerDeployment
    FinInfoServerDeployment FakeToolsServerDeployment McpGatewayServerDeployment AlbIngress
    addManifest addHelmChart addServiceAccount addFargateProfile new_FargateProfile
    new_Certificate new_UserPoolDomain new_construct CfnOutput].
  repeat sim_step.
Qed.

(** Case analysis on the certificate branches of a run; [tac] closes each
    branch. *)
Ltac cert_split r tac :=
  let Eca := fresh "Eca" in
  destruct (truthy (certificateArn r)) eqn:Eca;
  [ try (match goal with H : true = false |- _ => discriminate H end);
    tac
  | try (match goal with H : false = true |- _ => discriminate H end);
    try rewrite (createCertificate_prop_no_arn r Eca);
    try (match goal with H : false = false -> _ |- _ => specialize (H eq_refl) end);
    destruct (truthy (hostedZoneId r)); tac ].

Ltac cert_cases r tac := cert_split r ltac:(checks_split; vm_compute; tac).

(** Symbolic execution of an accepted run: one case per mode, the resolved
    [efsFileSystemId] made a non-empty string in application-only mode. *)
Ltac accepted_run r Hacc tac :=
  let Hd := fresh "Hd" in let Hp := fresh "Hp" in let Hm := fresh "Hm" in
  let He := fresh "He" in let Ee := fresh "Ee" in let s := fresh "s" in
  let c := fresh "c" in
  destruct (accepted_cases r Hacc) as [Hd [Hp [Hm|[Hm|[Hm He]]]]];
  unfold_run; unfold microservices_props; rewrite Hd, Hp, Hm;
  [ cert_cases r tac
  | cert_cases r tac
  | destruct (efsFileSystemId_cases r) as [Ee|[s Ee]]; rewrite Ee in *;
    [ discriminate He
    | destruct s as [|c s]; [discriminate He | cert_cases r tac] ] ].

(** Case analysis of any run on every check of the entry point and every
    certificate branch, the text of an invalid mode left abstract; [tac]
    closes each branch. *)
Ltac run_split r tac :=
  let Ee := fresh "Ee" in let s := fresh "s" in let c := fresh "c" in
  let m := fresh "m" in
  unfold_run; unfold microservices_props, invalid_mode_msg;
  generalize (js_str (deploymentMode r)); intros m;
  destruct (truthy (domainName r)); [|tac];
  destruct (truthy (adminPassword r)); [|tac];
  destruct (js_strict_eq (deploymentMode r) (JStr "complete"));
  [ cert_split r tac
  | destruct (js_strict_eq (deploymentMode r) (JStr "infrastructure-only"));
    [ cert_split r tac
    | destruct (js_strict_eq (deploymentMode r) (JStr "application-only")); [|tac];
      destruct (efsFileSystemId_cases r) as [Ee|[s Ee]]; rewrite Ee;
      [ tac | destruct s as [|c s]; [tac | cert_split r tac] ] ] ].

(** * The claims *)

(** ** Determinism *)

(** C1 (amended).  For fixed raw inputs, two invocations that observe
    different clocks ([Date.now()]) and different random numbers
    ([Math.random()]) produce deployment graphs that are equal once the
    values under the keys [data.SECRET_KEY] (ConfigMap) and [env.SECRET_KEY]
    (auth-server and registry containers) are erased: both runs build a
    graph or neither does, and the graphs have the same declarations in the
    same order, with the same logical names, kinds, dependency edges,
    configuration keys and all other configuration values. *)
Theorem graph_deterministic_up_to_secrets (lib : library) (r : raw) (w1 w2 : world) :
  option_map (map erase_decl) (graph lib r w1) = option_map (map erase_decl) (graph lib r w2).
Proof.
  destruct (sim_app_main lib r w1 w2 empty_state empty_state eq_refl) as [Hr Hs].
  unfold graph, main.
  destruct (app_main lib r w1 empty_state) as [[a1|e1] s1],
           (app_main lib r w2 empty_state) as [[a2|e2] s2];
    simpl in *; try discriminate; [|reflexivity].
  unfold erase_state in Hs. injection Hs as _ Hd. rewrite Hd. reflexivity.
Qed.

(** C1 counterexample.  The same application-only input run at two
    different instants gives two different graphs: the ConfigMap's
    [SECRET_KEY] is [auto-generated-secret-key-cdk-${Date.now()}]. *)
Lemma graph_deterministic_counterexample :
  graph lib_network_ok r_app w_a <> graph lib_network_ok r_app w_b.
Proof.
  intro H.
  apply (f_equal (option_map (fun g =>
           config_value g ["ExistingCluster"; "manifest-McpGatewayConfigMap"] "data.SECRET_KEY")))
    in H.
  vm_compute in H. discriminate H.
Qed.

(** ** Complete mode *)

(** C2.  Complete mode never yields a deployment graph, whatever the
    library's verdicts on the VPC: every run with [domainName] and
    [adminPassword] throws.  When every check of the library passes, the
    exception is the one thrown when [EfsPvc] adds the manifest
    [EfsStorageClass] to the cluster a second time (the first is added by
    [installEfsCsiDriver]). *)
Theorem complete_mode_always_fails (lib : library) (r : raw) (w : world) :
  truthy (domainName r) = true -> truthy (adminPassword r) = true ->
  deploymentMode r = JStr "complete" ->
  graph lib r w = None /\
  (library_checks_pass lib r = true ->
   outcome lib r w = RErr (DuplicateConstruct ["McpCluster"; "manifest-EfsStorageClass"])).
Proof.
  intros Hd Hp Hm. split.
  - unfold_run. rewrite Hd, Hp, Hm. cert_cases r ltac:(reflexivity).
  - intro Hc. pose proof (library_checks_pass_spec lib r Hc) as [Hcert Hnet].
    unfold_run. rewrite Hd, Hp, Hm. cert_cases r ltac:(reflexivity).
Qed.

Lemma complete_mode_always_fails_witness :
  truthy (domainName r_complete) = true /\ truthy (adminPassword r_complete) = true /\
  deploymentMode r_complete = JStr "complete" /\
  library_checks_pass lib_network_ok r_complete = true /\
  outcome lib_network_ok r_complete w_a
    = RErr (DuplicateConstruct ["McpCluster"; "manifest-EfsStorageClass"]).
Proof.
  split; [reflexivity|]. split; [reflexivity|]. split; [reflexivity|]. split; [reflexivity|].
  apply (proj2 (complete_mode_always_fails lib_network_ok r_complete w_a eq_refl eq_refl eq_refl)).
  reflexivity.
Defined.

(** ** Storage claims *)

(** C3.  In every application-only graph, the auth-server and registry
    Deployments mount the claim [efs-claim], while the only
    PersistentVolumeClaim of the graph is [efs-pvc] (the claim the tool
    servers mount).  Every accepted application-only input whose
    certificate passes the library's check builds such a graph. *)
Theorem application_graph_dangling_claim (lib : library) (r : raw) (w : world) :
  truthy (domainName r) = true -> truthy (adminPassword r) = true ->
  deploymentMode r = JStr "application-only" -> truthy (efsFileSystemId r) = true ->
  certificate_accepted r = true ->
  match graph lib r w with
  | Some g => In "efs-claim" (claim_names g) /\ ~ In "efs-claim" (pvc_names g) /\
              pvc_names g = ["efs-pvc"] /\ In "efs-pvc" (claim_names g)
  | None => False
  end.
Proof.
  intros Hd Hp Hm He Hc. pose proof (certificate_accepted_spec r Hc) as Hcert.
  unfold_run. rewrite Hd, Hp, Hm, He.
  destruct (efsFileSystemId_cases r) as [Ee|[s Ee]]; rewrite Ee in He; [discriminate He|].
  destruct s as [|c s]; [discriminate He|].
  unfold microservices_props. rewrite Ee.
  cert_cases r ltac:(
    (split; [left; reflexivity|]);
    (split; [intros [H|H]; [discriminate H | exact H]|]);
    (split; [reflexivity|]);
    right; right; left; reflexivity).
Qed.

Lemma application_graph_dangling_claim_witness :
  truthy (domainName r_app) = true /\ truthy (adminPassword r_app) = true /\
  deploymentMode r_app = JStr "application-only" /\ truthy (efsFileSystemId r_app) = true /\
  certificate_accepted r_app = true /\
  match graph lib_network_ok r_app w_a with
  | Some g => In "efs-claim" (claim_names g) /\ ~ In "efs-claim" (pvc_names g) /\
              pvc_names g = ["efs-pvc"] /\ In "efs-pvc" (claim_names g)
  | None => False
  end.
Proof.
  do 5 (split; [reflexivity|]).
  apply (application_graph_dangling_claim lib_network_ok r_app w_a); reflexivity.
Defined.

(** ** Required parameters *)

(** C4 (amended).  With [domainName] and [adminPassword] resolved to
    non-empty values, an application-only run whose [efsFileSystemId]
    resolves to no value (absent or empty) throws the [efsFileSystemId]
    error before any stack or declaration is created. *)
Theorem application_only_requires_efs (lib : library) (r : raw) (w : world) :
  truthy (domainName r) = true -> truthy (adminPassword r) = true ->
  deploymentMode r = JStr "application-only" -> truthy (efsFileSystemId r) = false ->
  main lib r w = (RErr (JsError efsFileSystemId_required_msg), empty_state).
Proof.
  intros Hd Hp Hm He. unfold main, app_main. rewrite Hd, Hp, Hm, He. reflexivity.
Qed.

Lemma application_only_requires_efs_witness :
  truthy (domainName r_app_empty_efs) = true /\ truthy (adminPassword r_app_empty_efs) = true /\
  deploymentMode r_app_empty_efs = JStr "application-only" /\
  truthy (efsFileSystemId r_app_empty_efs) = false /\
  main lib_network_ok r_app_empty_efs w_a
    = (RErr (JsError efsFileSystemId_required_msg), empty_state).
Proof.
  split; [reflexivity|]. split; [reflexivity|]. split; [reflexivity|]. split; [reflexivity|].
  apply (application_only_requires_efs lib_network_ok r_app_empty_efs w_a); reflexivity.
Defined.

(** C4 counterexample.  Application-only mode, [efsFileSystemId] given as
    the empty string and no [domainName]: the error is the [domainName]
    one, which does not identify the storage reference. *)
Lemma application_only_requires_efs_counterexample :
  deploymentMode r_app_empty_efs_no_domain = JStr "application-only" /\
  truthy (efsFileSystemId r_app_empty_efs_no_domain) = false /\
  main lib_network_ok r_app_empty_efs_no_domain w_a
    = (RErr (JsError domainName_required_msg), empty_state) /\
  domainName_required_msg <> efsFileSystemId_required_msg.
Proof. vm_compute. split; [reflexivity|]. split; [reflexivity|]. split; [reflexivity|]. discriminate. Qed.

(** C5 (amended).  In every mode, when [domainName] or [adminPassword]
    resolves to no value the run throws before any stack or declaration is
    created; the error names [domainName] when [domainName] is missing
    (whatever [adminPassword] is), and names [adminPassword] otherwise. *)
Theorem missing_required_parameter (lib : library) (r : raw) (w : world) :
  truthy (domainName r) && truthy (adminPassword r) = false ->
  main lib r w = (RErr (JsError (if truthy (domainName r) then adminPassword_required_msg
                                 else domainName_required_msg)), empty_state).
Proof.
  intro H. unfold main, app_main.
  destruct (truthy (domainName r)), (truthy (adminPassword r)); try discriminate; reflexivity.
Qed.

Lemma missing_required_parameter_witness :
  truthy (domainName r_no_password) && truthy (adminPassword r_no_password) = false /\
  main lib_network_ok r_no_password w_a = (RErr (JsError adminPassword_required_msg), empty_state).
Proof.
  split; [reflexivity|].
  apply (missing_required_parameter lib_network_ok r_no_password w_a); reflexivity.
Defined.

(** C5 counterexample.  Complete mode with neither [domainName] nor
    [adminPassword]: [adminPassword] resolves to no value, yet the error
    names [domainName], not [adminPassword]. *)
Lemma missing_required_parameter_counterexample :
  deploymentMode r_nothing = JStr "complete" /\ truthy (adminPassword r_nothing) = false /\
  main lib_network_ok r_nothing w_a = (RErr (JsError domainName_required_msg), empty_state) /\
  domainName_required_msg <> adminPassword_required_msg.
Proof. vm_compute. split; [reflexivity|]. split; [reflexivity|]. split; [reflexivity|]. discriminate. Qed.

(** ** Parameter resolution *)

(** C6 (amended).  Each string parameter resolves to the first non-empty
    of its context value and its environment value, else to its default
    ([deploymentMode] [complete], [clusterName] [mcp-gateway-registry],
    [vpcCidr] [10.0.0.0/16], [kubernetesVersion] [1.28]); the parameters
    with no default ([domainName], [efsFileSystemId], [certificateArn],
    [adminPassword], [hostedZoneId]) are then left with the environment
    value as it is (absent or empty).  [maxAzs] is [parseInt] of the first
    non-empty of context, environment and ["3"].  [createCertificate] is the
    context value when non-empty, else the boolean
    [CREATE_CERTIFICATE === 'true']. *)
Theorem parameter_resolution (r : raw) :
  let ctx k := assoc k (context r) in
  let env k := assoc k (environ r) in
  deploymentMode r = first_non_empty [ctx "deploymentMode"; env "DEPLOYMENT_MODE"] (JStr "complete") /\
  clusterName r = first_non_empty [ctx "clusterName"; env "CLUSTER_NAME"] (JStr "mcp-gateway-registry") /\
  vpcCidr r = first_non_empty [ctx "vpcCidr"; env "VPC_CIDR"] (JStr "10.0.0.0/16") /\
  kubernetesVersion r = first_non_empty [ctx "kubernetesVersion"; env "KUBERNETES_VERSION"] (JStr "1.28") /\
  maxAzs r = parseInt (first_non_empty [ctx "maxAzs"; env "MAX_AZS"] (JStr "3")) /\
  domainName r = first_non_empty [ctx "domainName"; env "DOMAIN_NAME"] (of_opt (env "DOMAIN_NAME")) /\
  efsFileSystemId r = first_non_empty [ctx "efsFileSystemId"; env "EFS_FILE_SYSTEM_ID"]
                        (of_opt (env "EFS_FILE_SYSTEM_ID")) /\
  certificateArn r = first_non_empty [ctx "certificateArn"; env "CERTIFICATE_ARN"]
                       (of_opt (env "CERTIFICATE_ARN")) /\
  adminPassword r = first_non_empty [ctx "adminPassword"; env "ADMIN_PASSWORD"]
                      (of_opt (env "ADMIN_PASSWORD")) /\
  hostedZoneId r = first_non_empty [ctx "hostedZoneId"; env "HOSTED_ZONE_ID"]
                     (of_opt (env "HOSTED_ZONE_ID")) /\
  createCertificate r = first_non_empty [ctx "createCertificate"]
                          (JBool (match env "CREATE_CERTIFICATE" with
                                  | Some s => String.eqb s "true"
                                  | None => false
                                  end)).
Proof.
  intros ctx env. subst ctx env.
  rewrite !first_non_empty_cons. cbn [first_non_empty].
  unfold deploymentMode, clusterName, vpcCidr, kubernetesVersion, maxAzs, domainName,
    efsFileSystemId, certificateArn, adminPassword, hostedZoneId, createCertificate,
    tryGetContext, process_env.
  rewrite !js_or_same.
  repeat split.
  destruct (assoc "CREATE_CERTIFICATE" (environ r)); reflexivity.
Qed.

(** C6 counterexample.  With no context and [CREATE_CERTIFICATE=yes] in the
    environment, [createCertificate] resolves to [false], not to the
    non-empty environment value. *)
Lemma parameter_resolution_counterexample :
  assoc "createCertificate" (context r_env_create_certificate) = None /\
  assoc "CREATE_CERTIFICATE" (environ r_env_create_certificate) = Some "yes" /\
  createCertificate r_env_create_certificate = JBool false.
Proof. vm_compute. repeat split. Qed.


(** ** [maxAzs] *)

(** C7 (amended).  [maxAzs] is never checked: in complete and
    infrastructure-only modes, when it parses to [NaN] and the CIDR block
    is one [ec2.IpAddresses.cidr] accepts, the program itself raises no
    error (a run can only fail in a check of aws-cdk-lib or on a construct
    conflict), and the VPC is declared with [maxAzs] 3, the fallback of
    [props.maxAzs || 3]. *)
Theorem maxAzs_not_validated (lib : library) (r : raw) (w : world) :
  truthy (domainName r) = true -> truthy (adminPassword r) = true ->
  (deploymentMode r = JStr "complete" \/ deploymentMode r = JStr "infrastructure-only") ->
  maxAzs r = JNum None ->
  ipAddresses_cidr_error lib (js_str (vpcCidr r)) = None ->
  (forall msg, outcome lib r w <> RErr (JsError msg)) /\
  config_value (trace lib r w) ["McpVpc"] "maxAzs" = Some "3".
Proof.
  intros Hd Hp Hm Hmax Hcidr. unfold_run. rewrite Hd, Hp, Hmax.
  destruct Hm as [Hm|Hm]; rewrite Hm;
    cert_cases r ltac:(split; [intros msg; discriminate | reflexivity]).
Qed.

Lemma maxAzs_not_validated_witness :
  truthy (domainName r_bad_maxAzs) = true /\ truthy (adminPassword r_bad_maxAzs) = true /\
  deploymentMode r_bad_maxAzs = JStr "infrastructure-only" /\ maxAzs r_bad_maxAzs = JNum None /\
  ipAddresses_cidr_error lib_network_ok (js_str (vpcCidr r_bad_maxAzs)) = None /\
  (forall msg, outcome lib_network_ok r_bad_maxAzs w_a <> RErr (JsError msg)) /\
  config_value (trace lib_network_ok r_bad_maxAzs w_a) ["McpVpc"] "maxAzs" = Some "3".
Proof.
  do 5 (split; [reflexivity|]).
  apply (maxAzs_not_validated lib_network_ok r_bad_maxAzs w_a);
    [reflexivity | reflexivity | right; reflexivity | reflexivity | reflexivity].
Defined.

(** C7 counterexample.  Infrastructure-only mode with [maxAzs=abc], the
    library accepting the VPC: [maxAzs] resolves to [NaN], the run ends
    without an exception, and the VPC has 3 availability zones. *)
Lemma maxAzs_not_validated_counterexample :
  maxAzs r_bad_maxAzs = JNum None /\ outcome lib_network_ok r_bad_maxAzs w_a = ROk tt /\
  config_value (trace lib_network_ok r_bad_maxAzs w_a) ["McpVpc"] "maxAzs" = Some "3".
Proof. vm_compute. repeat split. Qed.

(** ** Deployment mode *)

(** C8 (amended).  With [domainName] and [adminPassword] resolved to
    non-empty values and a mode that is none of [complete],
    [infrastructure-only] and [application-only], the run throws the error
    naming the mode before any stack or declaration is created. *)
Theorem invalid_mode_fails (lib : library) (r : raw) (w : world) :
  truthy (domainName r) = true -> truthy (adminPassword r) = true ->
  js_strict_eq (deploymentMode r) (JStr "complete") = false ->
  js_strict_eq (deploymentMode r) (JStr "infrastructure-only") = false ->
  js_strict_eq (deploymentMode r) (JStr "application-only") = false ->
  main lib r w = (RErr (JsError (invalid_mode_msg (deploymentMode r))), empty_state).
Proof.
  intros Hd Hp H1 H2 H3. unfold main, app_main. rewrite Hd, Hp, H1, H2, H3. reflexivity.
Qed.

Lemma invalid_mode_fails_witness :
  truthy (domainName r_staging) = true /\ truthy (adminPassword r_staging) = true /\
  js_strict_eq (deploymentMode r_staging) (JStr "complete") = false /\
  js_strict_eq (deploymentMode r_staging) (JStr "infrastructure-only") = false /\
  js_strict_eq (deploymentMode r_staging) (JStr "application-only") = false /\
  main lib_network_ok r_staging w_a =
    (RErr (JsError "Invalid deployment mode: staging. Use 'complete', 'infrastructure-only', or 'application-only'."),
     empty_state).
Proof.
  do 5 (split; [reflexivity|]).
  apply (invalid_mode_fails lib_network_ok r_staging w_a); reflexivity.
Defined.

(** C8 counterexample.  Mode [staging] with no [domainName]: the error
    names the missing [domainName], not the invalid mode. *)
Lemma invalid_mode_fails_counterexample :
  deploymentMode r_staging_no_domain = JStr "staging" /\
  main lib_network_ok r_staging_no_domain w_a = (RErr (JsError domainName_required_msg), empty_state).
Proof. vm_compute. split; reflexivity. Qed.

(** ** Certificates *)

(** C9 (amended).  On every accepted input whose [certificateArn] resolves
    to no value, in application-only mode or with a VPC the library
    accepts, the run declares the new certificate [McpGatewayCertificate]
    for the resolved [domainName] and never throws the certificate error of
    [setupCertificate]; it throws the certificate's error of aws-cdk-lib
    exactly when that domain name is longer than 64 characters. *)
Theorem new_certificate_without_arn (lib : library) (r : raw) (w : world) :
  accepted r = true -> truthy (certificateArn r) = false ->
  (js_strict_eq (deploymentMode r) (JStr "application-only") = true \/
   vpc_network_accepted lib r = true) ->
  kind_at (trace lib r w) ["McpGatewayCertificate"] = Some KCertificate /\
  config_value (trace lib r w) ["McpGatewayCertificate"] "domainName"
    = Some (js_str (domainName r)) /\
  outcome lib r w <> RErr (JsError "Either certificateArn or createCertificate must be provided") /\
  (outcome lib r w = RErr (LibraryError Certificate_domainName_msg) <->
   long_domainName (js_str (domainName r)) = true).
Proof.
  intros Hacc Hca Hn. pose proof (vpc_network_mode_spec lib r Hn) as Hnet.
  accepted_run r Hacc ltac:(
    (split; [reflexivity|]); (split; [reflexivity|]);
    (split; [discriminate|]);
    split; intros; first [reflexivity | discriminate]).
Qed.

Lemma new_certificate_without_arn_witness :
  accepted r_app = true /\ truthy (certificateArn r_app) = false /\
  js_strict_eq (deploymentMode r_app) (JStr "application-only") = true /\
  kind_at (trace lib_network_ok r_app w_a) ["McpGatewayCertificate"] = Some KCertificate /\
  config_value (trace lib_network_ok r_app w_a) ["McpGatewayCertificate"] "domainName"
    = Some "x.example.com" /\
  outcome lib_network_ok r_app w_a
    <> RErr (JsError "Either certificateArn or createCertificate must be provided") /\
  (outcome lib_network_ok r_app w_a = RErr (LibraryError Certificate_domainName_msg) <->
   long_domainName "x.example.com" = true).
Proof.
  do 3 (split; [reflexivity|]).
  apply (new_certificate_without_arn lib_network_ok r_app w_a);
    [reflexivity | reflexivity | left; reflexivity].
Defined.

(** C9 counterexample.  Application-only mode with neither [certificateArn]
    nor [createCertificate] and a domain name of 66 characters: the new
    certificate is requested, and aws-cdk-lib's [acm.Certificate] throws. *)
Lemma new_certificate_without_arn_counterexample :
  accepted r_long_domain = true /\ truthy (certificateArn r_long_domain) = false /\
  createCertificate r_long_domain = JBool false /\
  kind_at (trace lib_network_ok r_long_domain w_a) ["McpGatewayCertificate"] = Some KCertificate /\
  outcome lib_network_ok r_long_domain w_a = RErr (LibraryError Certificate_domainName_msg).
Proof. vm_compute. repeat split. Qed.

(** C10.  On every accepted input whose [certificateArn] resolves to a
    value, whatever [createCertificate] is, the run declares no new
    certificate; in application-only mode or with a VPC the library
    accepts, it imports [ExistingCertificate] from that ARN; and when it
    builds a graph, the stack's certificate output is that ARN. *)
Theorem existing_certificate_wins (lib : library) (r : raw) (w : world) :
  accepted r = true -> truthy (certificateArn r) = true ->
  forallb (fun d => negb (kind_eqb (d_kind d) KCertificate)) (trace lib r w) = true /\
  ((js_strict_eq (deploymentMode r) (JStr "application-only") = true \/
    vpc_network_accepted lib r = true) ->
   config_value (trace lib r w) ["ExistingCertificate"] "certificateArn"
     = Some (js_str (certificateArn r))) /\
  match graph lib r w with
  | Some g => config_value g ["CertificateArn"] "value" = Some (js_str (certificateArn r))
  | None => True
  end.
Proof.
  intros Hacc Hca. split; [|split].
  - accepted_run r Hacc ltac:(reflexivity).
  - intro Hn. pose proof (vpc_network_mode_spec lib r Hn) as Hnet.
    accepted_run r Hacc ltac:(reflexivity).
  - accepted_run r Hacc ltac:(first [reflexivity | exact I]).
Qed.

Lemma existing_certificate_wins_witness :
  accepted r_app_arn = true /\ truthy (certificateArn r_app_arn) = true /\
  forallb (fun d => negb (kind_eqb (d_kind d) KCertificate)) (trace lib_network_ok r_app_arn w_a)
    = true /\
  config_value (trace lib_network_ok r_app_arn w_a) ["ExistingCertificate"] "certificateArn"
    = Some "arn:aws:acm:us-east-1:111122223333:certificate/abc" /\
  match graph lib_network_ok r_app_arn w_a with
  | Some g => config_value g ["CertificateArn"] "value"
                = Some "arn:aws:acm:us-east-1:111122223333:certificate/abc"
  | None => True
  end.
Proof.
  split; [reflexivity|]. split; [reflexivity|].
  destruct (existing_certificate_wins lib_network_ok r_app_arn w_a eq_refl eq_refl)
    as [H1 [H2 H3]].
  split; [exact H1|]. split; [apply H2; left; reflexivity | exact H3].
Defined.
(** * Further properties of the code *)

(** ** Helper lemmas *)

Lemma maxAzs_number r : exists n, maxAzs r = JNum n.
Proof.
  unfold maxAzs, parseInt.
  destruct (js_or _ _); eexists; reflexivity.
Qed.

Lemma length_string_append (s t : string) : String.length (s ++ t) = String.length s + String.length t.
Proof. induction s as [|c s IH]; simpl; [reflexivity | now rewrite IH]. Qed.

Lemma length_substring_le n m s : String.length (substring n m s) <= m.
Proof.
  revert n m. induction s as [|c s IH]; intros [|n] [|m]; simpl; try lia; try apply IH.
  specialize (IH 0 m). lia.
Qed.

(** [Math.random()]-based keys are at most 26 characters long, the
    [Date.now()]-based one at least 30: they never coincide. *)
Lemma secret_keys_differ w : Complete.timestamp_secret_key w <> Complete.random_secret_key w.
Proof.
  intros E. apply (f_equal String.length) in E.
  unfold Complete.timestamp_secret_key, Complete.random_secret_key in E.
  rewrite !length_string_append in E.
  pose proof (length_substring_le 2 13 (random36 w 0)).
  pose proof (length_substring_le 2 13 (random36 w 1)).
  simpl in E. lia.
Qed.

(** ** The entry point *)

(** Extra X1: an accepted invocation creates exactly one stack, named by the
    deployment mode. *)
Theorem accepted_run_single_stack (lib : library) (r : raw) (w : world) :
  accepted r = true ->
  st_stacks (snd (main lib r w)) =
    [if js_strict_eq (deploymentMode r) (JStr "complete") then "McpgwCompleteInfrastructureStack"
     else if js_strict_eq (deploymentMode r) (JStr "infrastructure-only")
     then "McpgwInfrastructureStackFresh"
     else "McpgwMicroservicesCdkStack"].
Proof. intros Hacc. accepted_run r Hacc ltac:(reflexivity). Qed.

Lemma accepted_run_single_stack_witness :
  accepted r_app = true /\
  st_stacks (snd (main lib_network_ok r_app w_a)) = ["McpgwMicroservicesCdkStack"].
Proof.
  split; [reflexivity | apply (accepted_run_single_stack lib_network_ok r_app w_a); reflexivity].
Defined.

(** Extra X2: an invocation whose input is not accepted raises an error of
    the program's own and has created nothing; an accepted one never raises
    an error of the program's own (it can still fail in a check of
    aws-cdk-lib or on a construct conflict). *)
Theorem rejected_iff_js_error (lib : library) (r : raw) (w : world) :
  (accepted r = false -> exists msg, main lib r w = (RErr (JsError msg), empty_state)) /\
  (accepted r = true -> forall msg, outcome lib r w <> RErr (JsError msg)).
Proof.
  split; unfold accepted.
  - run_split r ltac:(intros Hf; vm_compute in Hf;
      first [discriminate Hf | vm_compute; eexists; reflexivity]).
  - run_split r ltac:(intros Hf; vm_compute in Hf;
      first [discriminate Hf | intros msg; checks_split; vm_compute; discriminate]).
Qed.

(** Extra X3: an accepted invocation in infrastructure-only or
    application-only mode builds a graph exactly when the checks of
    aws-cdk-lib pass: the certificate's domain name when no certificate ARN
    is given, and, outside application-only mode, the VPC and the Cognito
    domain prefix. *)
Theorem accepted_partial_mode_builds (lib : library) (r : raw) (w : world) :
  accepted r = true -> js_strict_eq (deploymentMode r) (JStr "complete") = false ->
  match graph lib r w with Some _ => true | None => false end = library_checks_pass lib r.
Proof.
  intros Hacc Hc; revert Hc.
  unfold library_checks_pass, vpc_network_accepted, cognito_prefix_accepted,
    certificate_accepted.
  accepted_run r Hacc ltac:(first [intros Hf; discriminate Hf | intros _; reflexivity]).
Qed.

Lemma accepted_partial_mode_builds_witness :
  accepted r_bad_cluster_name = true /\
  js_strict_eq (deploymentMode r_bad_cluster_name) (JStr "complete") = false /\
  library_checks_pass lib_network_ok r_bad_cluster_name = false /\
  match graph lib_network_ok r_bad_cluster_name w_a with Some _ => true | None => false end
    = false.
Proof.
  do 3 (split; [reflexivity|]).
  apply (accepted_partial_mode_builds lib_network_ok r_bad_cluster_name w_a); reflexivity.
Defined.

(** Extra X5: the entry point can never raise the certificate error of
    [setupCertificate]. *)
Theorem entry_point_never_lacks_certificate (lib : library) (r : raw) (w : world) :
  outcome lib r w <> RErr (JsError "Either certificateArn or createCertificate must be provided").
Proof. run_split r ltac:(checks_split; vm_compute; discriminate). Qed.

(** ** The infrastructure stack *)

(** Extra X6: in infrastructure-only mode, when the checks of aws-cdk-lib
    pass, the Kubernetes manifests are the cluster's aws-auth ConfigMap, the
    three service accounts of ExternalDNS, the load balancer controller and
    the EFS CSI controller, and the EFS StorageClass and PersistentVolume:
    no namespace, configuration or workload is deployed. *)
Theorem infrastructure_only_no_workloads (lib : library) (r : raw) (w : world) :
  truthy (domainName r) = true -> truthy (adminPassword r) = true ->
  deploymentMode r = JStr "infrastructure-only" -> library_checks_pass lib r = true ->
  match graph lib r w with
  | Some g =>
      manifest_paths g =
        [["McpCluster"; "AwsAuth"; "manifest"];
         ["McpCluster"; "ExternalDns"; "manifest-ExternalDnsServiceAccountResource"];
         ["McpCluster"; "AWSLoadBalancerController";
          "manifest-AWSLoadBalancerControllerServiceAccountResource"];
         ["McpCluster"; "EfsCsiController"; "manifest-EfsCsiControllerServiceAccountResource"];
         ["McpCluster"; "manifest-EfsStorageClass"];
         ["McpCluster"; "manifest-EfsPersistentVolume"]]
  | None => False
  end.
Proof.
  intros Hd Hp Hm Hl. destruct (library_checks_pass_spec lib r Hl) as [Hc Hn].
  unfold_run. rewrite Hd, Hp, Hm. cert_cases r ltac:(reflexivity).
Qed.

Lemma infrastructure_only_no_workloads_witness :
  library_checks_pass lib_network_ok r_infra = true /\
  match graph lib_network_ok r_infra w_a with
  | Some g =>
      manifest_paths g =
        [["McpCluster"; "AwsAuth"; "manifest"];
         ["McpCluster"; "ExternalDns"; "manifest-ExternalDnsServiceAccountResource"];
         ["McpCluster"; "AWSLoadBalancerController";
          "manifest-AWSLoadBalancerControllerServiceAccountResource"];
         ["McpCluster"; "EfsCsiController"; "manifest-EfsCsiControllerServiceAccountResource"];
         ["McpCluster"; "manifest-EfsStorageClass"];
         ["McpCluster"; "manifest-EfsPersistentVolume"]]
  | None => False
  end.
Proof.
  split; [reflexivity|].
  apply (infrastructure_only_no_workloads lib_network_ok r_infra w_a); reflexivity.
Defined.

(** Extra X7: in the complete and infrastructure-only modes, when
    [ec2.IpAddresses.cidr] accepts the CIDR block, the VPC is declared with
    the resolved [maxAzs] when it is a non-zero number, and 3 when it is 0
    or NaN. *)
Theorem vpc_maxAzs_fallback (lib : library) (r : raw) (w : world) :
  truthy (domainName r) = true -> truthy (adminPassword r) = true ->
  deploymentMode r = JStr "complete" \/ deploymentMode r = JStr "infrastructure-only" ->
  ipAddresses_cidr_error lib (js_str (vpcCidr r)) = None ->
  config_value (trace lib r w) ["McpVpc"] "maxAzs"
    = Some (if truthy (maxAzs r) then js_str (maxAzs r) else "3").
Proof.
  intros Hd Hp Hm Hcidr. destruct (maxAzs_number r) as [n Hn].
  unfold_run. rewrite Hd, Hp, Hn.
  destruct Hm as [Hm|Hm]; rewrite Hm;
    destruct n as [[|q|q]|]; cert_cases r ltac:(reflexivity).
Qed.

Lemma vpc_maxAzs_fallback_witness :
  ipAddresses_cidr_error lib_network_ok (js_str (vpcCidr r_bad_maxAzs)) = None /\
  config_value (trace lib_network_ok r_bad_maxAzs w_a) ["McpVpc"] "maxAzs" = Some "3".
Proof.
  split; [reflexivity|].
  apply (vpc_maxAzs_fallback lib_network_ok r_bad_maxAzs w_a);
    [reflexivity | reflexivity | now right | reflexivity].
Defined.

(** Extra X8: when aws-cdk-lib accepts the VPC, the cluster runs Kubernetes
    1.27 when the resolved [kubernetesVersion] is exactly "1.27", and 1.28
    for every other value. *)
Theorem cluster_version_choice (lib : library) (r : raw) (w : world) :
  truthy (domainName r) = true -> truthy (adminPassword r) = true ->
  deploymentMode r = JStr "complete" \/ deploymentMode r = JStr "infrastructure-only" ->
  vpc_network_accepted lib r = true ->
  config_value (trace lib r w) ["McpCluster"] "version"
    = Some (if js_strict_eq (kubernetesVersion r) (JStr "1.27") then "1.27" else "1.28").
Proof.
  intros Hd Hp Hm Hn. pose proof (vpc_network_accepted_spec lib r Hn) as Hnet.
  unfold_run. unfold complete_props. rewrite Hd, Hp.
  destruct (js_strict_eq (kubernetesVersion r) (JStr "1.28")) eqn:E28.
  - apply js_strict_eq_JStr in E28. rewrite E28.
    destruct Hm as [Hm|Hm]; rewrite Hm; cert_cases r ltac:(reflexivity).
  - destruct (js_strict_eq (kubernetesVersion r) (JStr "1.27"));
      destruct Hm as [Hm|Hm]; rewrite Hm; cert_cases r ltac:(reflexivity).
Qed.

Lemma cluster_version_choice_witness :
  vpc_network_accepted lib_network_ok r_infra = true /\
  config_value (trace lib_network_ok r_infra w_a) ["McpCluster"] "version" = Some "1.28".
Proof.
  split; [reflexivity|].
  apply (cluster_version_choice lib_network_ok r_infra w_a);
    [reflexivity | reflexivity | now right | reflexivity].
Defined.

(** Extra X9: without a certificate ARN, when the checks of aws-cdk-lib
    pass, the certificate of the infrastructure stack is validated by DNS
    through the hosted zone it imports when [hostedZoneId] is set, and
    otherwise by DNS records reported in the CertificateDnsValidationRecords
    output; the certificate depends on no other construct. *)
Theorem certificate_validation_branches (lib : library) (r : raw) (w : world) :
  truthy (domainName r) = true -> truthy (adminPassword r) = true ->
  deploymentMode r = JStr "infrastructure-only" -> truthy (certificateArn r) = false ->
  library_checks_pass lib r = true ->
  match graph lib r w with
  | Some g =>
      deps_at g ["McpGatewayCertificate"] = Some [] /\
      config_value g ["McpGatewayCertificate"] "validation"
        = Some (if truthy (hostedZoneId r) then "DNS:" ++ js_str (hostedZoneId r) else "DNS") /\
      kind_at g ["HostedZone"]
        = (if truthy (hostedZoneId r) then Some KImportedHostedZone else None) /\
      kind_at g ["CertificateDnsValidationRecords"]
        = (if truthy (hostedZoneId r) then None else Some KOutput)
  | None => False
  end.
Proof.
  intros Hd Hp Hm Hca Hl. destruct (library_checks_pass_spec lib r Hl) as [Hc Hn].
  unfold_run. rewrite Hd, Hp, Hm. cert_cases r ltac:(repeat split).
Qed.

Lemma certificate_validation_branches_witness :
  truthy (certificateArn r_infra) = false /\ library_checks_pass lib_network_ok r_infra = true /\
  match graph lib_network_ok r_infra w_a with
  | Some g =>
      deps_at g ["McpGatewayCertificate"] = Some [] /\
      config_value g ["McpGatewayCertificate"] "validation" = Some "DNS" /\
      kind_at g ["HostedZone"] = None /\
      kind_at g ["CertificateDnsValidationRecords"] = Some KOutput
  | None => False
  end.
Proof.
  do 2 (split; [reflexivity|]).
  apply (certificate_validation_branches lib_network_ok r_infra w_a); reflexivity.
Defined.

(** Extra X10: when the checks of aws-cdk-lib pass, the Cognito user pool
    of the infrastructure stack is named after the cluster, its hosted UI
    prefix is mcp-gateway-<clusterName>, and the callback and logout URLs of
    its app client are built from the domain name. *)
Theorem cognito_names (lib : library) (r : raw) (w : world) :
  truthy (domainName r) = true -> truthy (adminPassword r) = true ->
  deploymentMode r = JStr "infrastructure-only" -> library_checks_pass lib r = true ->
  match graph lib r w with
  | Some g =>
      config_value g ["McpUserPool"] "userPoolName"
        = Some ("mcp-gateway-users-" ++ js_str (clusterName r)) /\
      config_value g ["McpUserPoolDomain"] "domainPrefix"
        = Some ("mcp-gateway-" ++ js_str (clusterName r)) /\
      config_value g ["McpUserPoolClient"] "oAuth.callbackUrls"
        = Some (join "," ["http://localhost:9090/callback";
                          "http://localhost/oauth2/callback/cognito";
                          "http://localhost:8888/oauth2/callback/cognito";
                          "https://" ++ js_str (domainName r) ++ "/oauth2/callback/cognito"]) /\
      config_value g ["McpUserPoolClient"] "oAuth.logoutUrls"
        = Some (join "," ["https://" ++ js_str (domainName r) ++ "/auth/logout";
                          "https://" ++ js_str (domainName r) ++ "/logout"])
  | None => False
  end.
Proof.
  intros Hd Hp Hm Hl. destruct (library_checks_pass_spec lib r Hl) as [Hc Hn].
  unfold_run. rewrite Hd, Hp, Hm. cert_cases r ltac:(repeat split).
Qed.

Lemma cognito_names_witness :
  library_checks_pass lib_network_ok r_infra = true /\
  match graph lib_network_ok r_infra w_a with
  | Some g =>
      config_value g ["McpUserPool"] "userPoolName" = Some "mcp-gateway-users-mcp-gateway-registry" /\
      config_value g ["McpUserPoolDomain"] "domainPrefix" = Some "mcp-gateway-mcp-gateway-registry" /\
      config_value g ["McpUserPoolClient"] "oAuth.callbackUrls"
        = Some (join "," ["http://localhost:9090/callback";
                          "http://localhost/oauth2/callback/cognito";
                          "http://localhost:8888/oauth2/callback/cognito";
                          "https://x.example.com/oauth2/callback/cognito"]) /\
      config_value g ["McpUserPoolClient"] "oAuth.logoutUrls"
        = Some (join "," ["https://x.example.com/auth/logout"; "https://x.example.com/logout"])
  | None => False
  end.
Proof.
  split; [reflexivity|].
  apply (cognito_names lib_network_ok r_infra w_a); reflexivity.
Defined.

(** Extra X18: in the complete and infrastructure-only modes, when
    aws-cdk-lib accepts the VPC and the certificate, a Cognito domain
    prefix mcp-gateway-<clusterName> with a character other than a
    lowercase letter, a digit or a hyphen makes the run fail in the check of
    [cognito.UserPoolDomain], after the domain is declared. *)
Theorem cognito_prefix_rejected (lib : library) (r : raw) (w : world) :
  truthy (domainName r) = true -> truthy (adminPassword r) = true ->
  deploymentMode r = JStr "complete" \/ deploymentMode r = JStr "infrastructure-only" ->
  vpc_network_accepted lib r = true -> certificate_accepted r = true ->
  cognito_prefix_accepted r = false ->
  outcome lib r w = RErr (LibraryError UserPoolDomain_prefix_msg) /\
  kind_at (trace lib r w) ["McpUserPoolDomain"] = Some KUserPoolDomain.
Proof.
  intros Hd Hp Hm Hn Hcert Hpre.
  pose proof (vpc_network_accepted_spec lib r Hn) as Hnet.
  pose proof (certificate_accepted_spec r Hcert) as Hc.
  unfold cognito_prefix_accepted in Hpre.
  unfold_run. rewrite Hd, Hp.
  destruct Hm as [Hm|Hm]; rewrite Hm; cert_cases r ltac:(split; reflexivity).
Qed.

Lemma cognito_prefix_rejected_witness :
  vpc_network_accepted lib_network_ok r_bad_cluster_name = true /\
  certificate_accepted r_bad_cluster_name = true /\
  cognito_prefix_accepted r_bad_cluster_name = false /\
  outcome lib_network_ok r_bad_cluster_name w_a = RErr (LibraryError UserPoolDomain_prefix_msg) /\
  kind_at (trace lib_network_ok r_bad_cluster_name w_a) ["McpUserPoolDomain"]
    = Some KUserPoolDomain.
Proof.
  do 3 (split; [reflexivity|]).
  apply (cognito_prefix_rejected lib_network_ok r_bad_cluster_name w_a);
    [reflexivity | reflexivity | now right | reflexivity | reflexivity | reflexivity].
Defined.
(** ** The microservices stack *)

(** Extra X11: when aws-cdk-lib accepts the certificate, the
    application-only graph holds exactly these twenty Kubernetes manifests,
    in this order, each depending on the imported cluster. *)
Theorem application_manifests (lib : library) (r : raw) (w : world) :
  truthy (domainName r) = true -> truthy (adminPassword r) = true ->
  deploymentMode r = JStr "application-only" -> truthy (efsFileSystemId r) = true ->
  certificate_accepted r = true ->
  match graph lib r w with
  | Some g =>
      manifest_paths g =
        map (fun id => ["ExistingCluster"; "manifest-" ++ id])
          ["McpRegistryNamespace"; "EfsStorageClass"; "EfsPvc"; "McpGatewayConfigMap";
           "McpGatewaySecret"; "AuthServerDeployment"; "AuthServerService"; "AuthServerHPA";
           "RegistryDeployment"; "RegistryService"; "RegistryHPA";
           "CurrentTimeServerDeployment"; "CurrentTimeServerService";
           "FinInfoServerDeployment"; "FinInfoServerService";
           "FakeToolsServerDeployment"; "FakeToolsServerService";
           "McpGatewayServerDeployment"; "McpGatewayServerService"; "RegistryIngress"] /\
      forallb (fun d => negb (is_manifest d) || existsb (path_eqb ["ExistingCluster"]) (d_deps d)) g
        = true
  | None => False
  end.
Proof.
  intros Hd Hp Hm He Hcert. pose proof (certificate_accepted_spec r Hcert) as Hc.
  unfold_run. unfold microservices_props. rewrite Hd, Hp, Hm, He.
  cert_cases r ltac:(split; reflexivity).
Qed.

Lemma application_manifests_witness :
  match graph lib_network_ok r_app w_a with
  | Some g => length (manifest_paths g) = 20
  | None => False
  end.
Proof.
  pose proof (application_manifests lib_network_ok r_app w_a eq_refl eq_refl eq_refl eq_refl eq_refl) as H.
  destruct (graph lib_network_ok r_app w_a) as [g|]; [|exact H].
  destruct H as [H _]. rewrite H. reflexivity.
Defined.

(** Extra X12: when aws-cdk-lib accepts the certificate, the admin
    password is written in plain text into the Secret of the
    application-only graph and into the environment of the auth-server and
    registry containers. *)
Theorem admin_password_in_plain_text (lib : library) (r : raw) (w : world) :
  truthy (domainName r) = true -> truthy (adminPassword r) = true ->
  deploymentMode r = JStr "application-only" -> truthy (efsFileSystemId r) = true ->
  certificate_accepted r = true ->
  match graph lib r w with
  | Some g =>
      config_value g ["ExistingCluster"; "manifest-McpGatewaySecret"] "stringData.admin-password"
        = Some (js_str (adminPassword r)) /\
      config_value g ["ExistingCluster"; "manifest-AuthServerDeployment"] "env.ADMIN_PASSWORD"
        = Some (js_str (adminPassword r)) /\
      config_value g ["ExistingCluster"; "manifest-RegistryDeployment"] "env.ADMIN_PASSWORD"
        = Some (js_str (adminPassword r))
  | None => False
  end.
Proof.
  intros Hd Hp Hm He Hcert. pose proof (certificate_accepted_spec r Hcert) as Hc.
  unfold_run. unfold microservices_props. rewrite Hd, Hp, Hm, He.
  cert_cases r ltac:(repeat split).
Qed.

Lemma admin_password_in_plain_text_witness :
  match graph lib_network_ok r_app w_a with
  | Some g =>
      config_value g ["ExistingCluster"; "manifest-McpGatewaySecret"] "stringData.admin-password"
        = Some "p" /\
      config_value g ["ExistingCluster"; "manifest-AuthServerDeployment"] "env.ADMIN_PASSWORD"
        = Some "p" /\
      config_value g ["ExistingCluster"; "manifest-RegistryDeployment"] "env.ADMIN_PASSWORD"
        = Some "p"
  | None => False
  end.
Proof. apply (admin_password_in_plain_text lib_network_ok r_app w_a); reflexivity. Defined.

(** Extra X13: in application-only mode, when aws-cdk-lib accepts the
    certificate, the Cognito settings of the auth-server and registry come
    from the COGNITO_* environment variables (or are empty): the entry point
    never passes them as props. *)
Theorem cognito_settings_from_environment (lib : library) (r : raw) (w : world) :
  truthy (domainName r) = true -> truthy (adminPassword r) = true ->
  deploymentMode r = JStr "application-only" -> truthy (efsFileSystemId r) = true ->
  certificate_accepted r = true ->
  forall var dep,
  In var ["COGNITO_CLIENT_ID"; "COGNITO_CLIENT_SECRET"; "COGNITO_USER_POOL_ID"] ->
  In dep ["AuthServerDeployment"; "RegistryDeployment"] ->
  match graph lib r w with
  | Some g =>
      config_value g ["ExistingCluster"; "manifest-" ++ dep] ("env." ++ var)
        = Some (js_str (js_or (process_env r var) (JStr "")))
  | None => False
  end.
Proof.
  intros Hd Hp Hm He Hcert var dep Hv Hdep.
  pose proof (certificate_accepted_spec r Hcert) as Hc.
  unfold_run. unfold microservices_props. rewrite Hd, Hp, Hm, He.
  destruct Hv as [<-|[<-|[<-|[]]]]; destruct Hdep as [<-|[<-|[]]];
    cert_cases r ltac:(reflexivity).
Qed.

Lemma cognito_settings_from_environment_witness :
  match graph lib_network_ok r_app w_a with
  | Some g =>
      config_value g ["ExistingCluster"; "manifest-AuthServerDeployment"] "env.COGNITO_CLIENT_ID"
        = Some ""
  | None => False
  end.
Proof.
  apply (cognito_settings_from_environment lib_network_ok r_app w_a); simpl; auto.
Defined.

(** Extra X14: when aws-cdk-lib accepts the certificate, the auth-server
    and registry containers of the application-only graph share one
    [SECRET_KEY], and the ConfigMap's [SECRET_KEY] always differs from it. *)
Theorem secret_key_shared (lib : library) (r : raw) (w : world) :
  truthy (domainName r) = true -> truthy (adminPassword r) = true ->
  deploymentMode r = JStr "application-only" -> truthy (efsFileSystemId r) = true ->
  certificate_accepted r = true ->
  match graph lib r w with
  | Some g =>
      config_value g ["ExistingCluster"; "manifest-AuthServerDeployment"] "env.SECRET_KEY"
        = config_value g ["ExistingCluster"; "manifest-RegistryDeployment"] "env.SECRET_KEY" /\
      config_value g ["ExistingCluster"; "manifest-McpGatewayConfigMap"] "data.SECRET_KEY"
        <> config_value g ["ExistingCluster"; "manifest-AuthServerDeployment"] "env.SECRET_KEY"
  | None => False
  end.
Proof.
  intros Hd Hp Hm He Hcert. pose proof (certificate_accepted_spec r Hcert) as Hc.
  assert (H : match graph lib r w with
              | Some g =>
                  config_value g ["ExistingCluster"; "manifest-AuthServerDeployment"] "env.SECRET_KEY"
                    = Some (Complete.random_secret_key w) /\
                  config_value g ["ExistingCluster"; "manifest-RegistryDeployment"] "env.SECRET_KEY"
                    = Some (Complete.random_secret_key w) /\
                  config_value g ["ExistingCluster"; "manifest-McpGatewayConfigMap"] "data.SECRET_KEY"
                    = Some (Complete.timestamp_secret_key w)
              | None => False
              end).
  { unfold_run. unfold microservices_props. rewrite Hd, Hp, Hm, He.
    cert_cases r ltac:(repeat split). }
  destruct (graph lib r w) as [g|]; [|exact H].
  destruct H as [H1 [H2 H3]]. rewrite H1, H2, H3. split; [reflexivity|].
  intros E. injection E. apply secret_keys_differ.
Qed.

Lemma secret_key_shared_witness :
  match graph lib_network_ok r_app w_a with
  | Some g =>
      config_value g ["ExistingCluster"; "manifest-AuthServerDeployment"] "env.SECRET_KEY"
        = config_value g ["ExistingCluster"; "manifest-RegistryDeployment"] "env.SECRET_KEY" /\
      config_value g ["ExistingCluster"; "manifest-McpGatewayConfigMap"] "data.SECRET_KEY"
        <> config_value g ["ExistingCluster"; "manifest-AuthServerDeployment"] "env.SECRET_KEY"
  | None => False
  end.
Proof. apply (secret_key_shared lib_network_ok r_app w_a); reflexivity. Defined.

(** Extra X15: when aws-cdk-lib accepts the certificate, the ALB ingress of
    the application-only graph terminates TLS with the given ARN, or else
    with the new certificate, on which it then depends. *)
Theorem ingress_certificate (lib : library) (r : raw) (w : world) :
  truthy (domainName r) = true -> truthy (adminPassword r) = true ->
  deploymentMode r = JStr "application-only" -> truthy (efsFileSystemId r) = true ->
  certificate_accepted r = true ->
  match graph lib r w with
  | Some g =>
      config_value g ["ExistingCluster"; "manifest-RegistryIngress"]
        "annotations.alb.ingress.kubernetes.io/certificate-arn"
        = Some (if truthy (certificateArn r) then js_str (certificateArn r)
                else "${Token[McpGatewayCertificate.Ref]}") /\
      deps_at g ["ExistingCluster"; "manifest-RegistryIngress"]
        = Some (if truthy (certificateArn r) then [["ExistingCluster"]]
                else [["ExistingCluster"]; ["McpGatewayCertificate"]])
  | None => False
  end.
Proof.
  intros Hd Hp Hm He Hcert. pose proof (certificate_accepted_spec r Hcert) as Hc.
  unfold_run. unfold microservices_props. rewrite Hd, Hp, Hm, He.
  cert_cases r ltac:(split; reflexivity).
Qed.

Lemma ingress_certificate_witness :
  match graph lib_network_ok r_app w_a with
  | Some g =>
      config_value g ["ExistingCluster"; "manifest-RegistryIngress"]
        "annotations.alb.ingress.kubernetes.io/certificate-arn"
        = Some "${Token[McpGatewayCertificate.Ref]}" /\
      deps_at g ["ExistingCluster"; "manifest-RegistryIngress"]
        = Some [["ExistingCluster"]; ["McpGatewayCertificate"]]
  | None => False
  end.
Proof. apply (ingress_certificate lib_network_ok r_app w_a); reflexivity. Defined.

(** Extra X16: built directly (as the stack tests do), the microservices
    stack with neither [certificateArn] nor [createCertificate] throws the
    certificate error after creating only the stack. *)
Theorem microservices_stack_requires_certificate (si : stack_info) (r : raw) (w : world)
    (p : MicroservicesProps) :
  truthy (mp_certificateArn p) = false -> truthy (mp_createCertificate p) = false ->
  Microservices.McpgwMicroservicesCdkStack si r w p empty_state
    = (RErr (JsError "Either certificateArn or createCertificate must be provided"),
       mk_state [stackName si] []).
Proof.
  intros Ha Hc.
  unfold Microservices.McpgwMicroservicesCdkStack, Microservices.setupCertificate.
  rewrite Ha, Hc. reflexivity.
Qed.

Lemma microservices_stack_requires_certificate_witness :
  Microservices.McpgwMicroservicesCdkStack test_stack r_nothing w_a test_props_empty empty_state
    = (RErr (JsError "Either certificateArn or createCertificate must be provided"),
       mk_state ["MyTestStack"] []).
Proof. apply microservices_stack_requires_certificate; reflexivity. Defined.

(** Extra X17: built directly with [certificateArn] or [createCertificate],
    and, without [certificateArn], a domain name of at most 64 characters,
    the microservices stack always succeeds with twenty Kubernetes
    manifests; the four tool servers mount the efs-pvc claim exactly when
    [efsFileSystemId] is non-empty, while auth-server and registry always
    name efs-claim. *)
Theorem microservices_stack_volumes (si : stack_info) (r : raw) (w : world)
    (p : MicroservicesProps) :
  (truthy (mp_certificateArn p) || truthy (mp_createCertificate p)) = true ->
  (truthy (mp_certificateArn p) || negb (long_domainName (js_str (mp_domainName p)))) = true ->
  fst (Microservices.McpgwMicroservicesCdkStack si r w p empty_state) = ROk tt /\
  length (manifest_paths (st_decls (snd (Microservices.McpgwMicroservicesCdkStack si r w p empty_state))))
    = 20 /\
  claim_names (st_decls (snd (Microservices.McpgwMicroservicesCdkStack si r w p empty_state)))
    = app ["efs-claim"; "efs-claim"]
        (if String.eqb (js_str (mp_efsFileSystemId p)) "" then []
         else ["efs-pvc"; "efs-pvc"; "efs-pvc"; "efs-pvc"]).
Proof.
  intros H Hl.
  unfold Microservices.McpgwMicroservicesCdkStack, Microservices.setupCertificate,
    new_Certificate, Certificate_check.
  cbv beta zeta iota delta [Microservices.deployMicroservicesArchitecture
    CurrentTimeServerDeployment FinInfoServerDeployment FakeToolsServerDeployment
    McpGatewayServerDeployment tool_server efs_volume lit a_val].
  destruct (truthy (mp_certificateArn p)), (truthy (mp_createCertificate p)),
    (long_domainName (js_str (mp_domainName p))); simpl in H, Hl;
    try discriminate H; try discriminate Hl;
    try destruct (truthy (mp_hostedZoneId p));
    destruct (String.eqb (js_str (mp_efsFileSystemId p)) ""); vm_compute; repeat split.
Qed.

Lemma microservices_stack_volumes_witness :
  claim_names (st_decls (snd (Microservices.McpgwMicroservicesCdkStack test_stack r_nothing w_a
                                test_props empty_state)))
    = ["efs-claim"; "efs-claim"; "efs-pvc"; "efs-pvc"; "efs-pvc"; "efs-pvc"].
Proof.
  apply (microservices_stack_volumes test_stack r_nothing w_a test_props); reflexivity.
Defined.
